(** * EV charging-stop planning: a shallow embedding

    This development embeds the charging-stop planner of
    [backend/src/services/route_planning_service.py], the station scorer and
    connector filter of [backend/src/services/charging_service.py] and the
    charging-time estimate of [backend/src/agents/route_optimizer.py].

    Numbers.  The Python code computes on [float].  Here every float is an
    exact rational ([Q]): the theorems are about the arithmetic the code
    writes down, not about binary64 rounding.  The great-circle distance
    needs [sin], [cos], [asin] and [sqrt], which have no rational model, so
    [haversine_distance] is a parameter of the planner and every theorem
    holds for every distance function.  Division follows Python: a zero
    divisor raises [ZeroDivisionError].

    The loop.  [while True] is one pass function, [iteration], run by
    [while_true] under a fuel bound; [find_optimal_stops_terminates] shows
    that ten passes are enough for every input, which is the fuel
    [_find_optimal_stops] uses.  The routing provider is an external call
    and is a second parameter, [get_tomtom_route]. *)

From Stdlib Require Import String QArith Qround Qabs ZArith List Bool Lia Lqa Sorted.
Import ListNotations.

Open Scope Q_scope.

(** ** Python numerics *)

Inductive exn : Type :=
| ZeroDivisionError
| KeyError (key : string).

Inductive result (A : Type) : Type :=
| Returned (a : A)
| Raised (e : exn).

Arguments Returned {A} a.
Arguments Raised {A} e.

Definition bind {A B : Type} (r : result A) (k : A -> result B) : result B :=
  match r with
  | Returned a => k a
  | Raised e => Raised e
  end.

Notation "x <- r ;; k" := (bind r (fun x => k))
  (at level 61, r at next level, right associativity).

(** [x < y] on floats, as a boolean. *)
Definition Qltb (x y : Q) : bool := negb (Qle_bool y x).

(** [x / y]: raises on a zero divisor. *)
Definition py_div (x y : Q) : result Q :=
  if Qeq_bool y 0 then Raised ZeroDivisionError else Returned (x / y).

(** [max(a, b)]: the first argument wins unless the second is greater. *)
Definition py_max (a b : Q) : Q := if Qltb a b then b else a.

(** [min(a, b)]: the first argument wins unless the second is smaller. *)
Definition py_min (a b : Q) : Q := if Qltb b a then b else a.

(** [max(iterable, key=...)] on a non-empty iterable [best :: l]: the first
    element with the greatest key. *)
Fixpoint py_max_key {A : Type} (key : A -> Q) (best : A) (l : list A) : A :=
  match l with
  | [] => best
  | x :: l' => py_max_key key (if Qltb (key best) (key x) then x else best) l'
  end.

(** [sum(...)]: starts from 0 and adds from the left. *)
Definition py_sum (l : list Q) : Q := fold_left Qplus l 0.

(** [int(x)]: truncation toward zero. *)
Definition py_int (x : Q) : Z := Z.quot (Qnum x) (Zpos (Qden x)).

(** [round(x, ndigits)]: to the nearest multiple of [10^-ndigits], ties to
    the even one. *)
Definition py_round (x : Q) (ndigits : nat) : Q :=
  let scale := inject_Z (10 ^ Z.of_nat ndigits) in
  let y := x * scale in
  let f := Qfloor y in
  let frac := y - inject_Z f in
  let n :=
    if Qltb frac (1 # 2) then f
    else if Qltb (1 # 2) frac then (f + 1)%Z
    else if Z.even f then f else (f + 1)%Z in
  inject_Z n / scale.

(** [d.get(key, default)] for an optional dictionary entry. *)
Definition get {A : Type} (entry : option A) (default : A) : A :=
  match entry with
  | Some v => v
  | None => default
  end.

(** ** Data of the route planning service *)

(** A station record as [_find_optimal_stops] reads it: [name], [city],
    [latitude] and [longitude] are indexed, the other keys are read with
    [.get] and a default. *)
Module Station.
Record t : Type := mk {
  name : string;
  city : string;
  latitude : Q;
  longitude : Q;
  power_kw : option Q;
  connector_type : option string;
  price_per_kwh : option Q
}.
End Station.

(** An entry of [candidate_stations]: the station's keys ([**station]) and
    the four computed ones. *)
Module Candidate.
Record t : Type := mk {
  station : Station.t;
  distance_from_current : Q;
  distance_to_destination : Q;
  detour : Q;
  progress_score : Q
}.
End Candidate.

(** [stop_info]. *)
Module Stop.
Record t : Type := mk {
  segment : Z;
  station_name : string;
  city : string;
  latitude : Q;
  longitude : Q;
  distance_from_start : Q;
  distance_traveled : Q;
  distance_to_destination : Q;
  battery_on_arrival : Q;
  battery_after_charge : Q;
  kwh_charged : Q;
  charging_power_kw : Q;
  charging_time_minutes : Q;
  connector_type : string;
  price_per_kwh : Q;
  estimated_cost : Q
}.
End Stop.

(** The dictionary returned by [get_tomtom_route] when the provider answers. *)
Module TomTom.
Record t : Type := mk {
  coordinates : list (Q * Q);
  distance_km : Q;
  time_minutes : Q;
  traffic_delay_minutes : Q
}.
End TomTom.

Module Waypoint.
Inductive kind : Type := start | charging | end_.
Record t : Type := mk {
  type : kind;
  latitude : Q;
  longitude : Q;
  name : string;
  segment : option Z
}.
End Waypoint.

Module RouteSummary.
Record t : Type := mk {
  total_distance_km : Q;
  driving_time_minutes : Q;
  traffic_delay_minutes : Q;
  total_time_minutes : Q;
  num_charging_stops : nat;
  charging_time_minutes : Q;
  estimated_cost_tl : Q;
  energy_needed_kwh : Q;
  vehicle_range_km : Q;
  with_traffic : bool
}.
End RouteSummary.

Module Response.
Record t : Type := mk {
  success : bool;
  message : string;
  route_summary : RouteSummary.t;
  route_coordinates : list (Q * Q);
  charging_stops : list Stop.t;
  waypoints : list Waypoint.t
}.
End Response.

(** The local variables of the [while True] loop. *)
Record LoopState : Type := mkLoopState {
  stops : list Stop.t;
  current_lat : Q;
  current_lon : Q;
  current_battery : Q;
  segment_number : Z
}.

(** The logger call that precedes each [break]. *)
Inductive LogEvent : Type :=
| CanReachDestination
| TooManySegments
| NoReachableStations
| MaxStopsReached.

(** What one pass through the loop body does. *)
Inductive Iter : Type :=
| Break (why : LogEvent) (result_stops : list Stop.t)
| Continue (st : LoopState)
| Raise (e : exn).

Section RoutePlanningService.

(** [haversine_distance lat1 lon1 lat2 lon2], in kilometres. *)
Variable haversine_distance : Q -> Q -> Q -> Q -> Q.

(** [get_tomtom_route start_lat start_lon end_lat end_lon waypoints]: the
    routing provider; [None] when it fails or finds no route. *)
Variable get_tomtom_route : Q -> Q -> Q -> Q -> list (Q * Q) -> option TomTom.t.

Section Loop.

Variables end_lat end_lon : Q.
Variable stations : list Station.t.
Variables vehicle_range_km battery_capacity_kwh : Q.
Variables min_charge_percent preferred_charge_percent : Q.

(** The body of [for station in stations] for one station: [None] is a
    [continue], [Some] is the appended candidate. *)
Definition candidate (st : LoopState) (remaining_range : Q)
    (station : Station.t) : option Candidate.t :=
  let dist_from_current :=
    haversine_distance (current_lat st) (current_lon st)
      (Station.latitude station) (Station.longitude station) in
  if Qltb dist_from_current 100 then None
  else if Qltb (remaining_range * (80 # 100)) dist_from_current then None
  else
    let dist_to_destination :=
      haversine_distance (Station.latitude station) (Station.longitude station)
        end_lat end_lon in
    let direct_distance :=
      haversine_distance (current_lat st) (current_lon st) end_lat end_lon in
    let detour := (dist_from_current + dist_to_destination) - direct_distance in
    if Qltb 30 detour then None
    else
      let score := (dist_from_current * 10) - (detour * 50) in
      Some (Candidate.mk station dist_from_current dist_to_destination
              detour score).

Fixpoint candidate_stations (st : LoopState) (remaining_range : Q)
    (l : list Station.t) : list Candidate.t :=
  match l with
  | [] => []
  | station :: l' =>
      match candidate st remaining_range station with
      | None => candidate_stations st remaining_range l'
      | Some c => c :: candidate_stations st remaining_range l'
      end
  end.

(** [stop_info] for the selected station; the two divisions can raise. *)
Definition stop_info (st : LoopState) (segment_number : Z)
    (best_station : Candidate.t) : result Stop.t :=
  let kwh_needed :=
    battery_capacity_kwh * (preferred_charge_percent - current_battery st) / 100 in
  let charging_power := get (Station.power_kw (Candidate.station best_station)) 50 in
  hours <- py_div kwh_needed charging_power ;;
  let charging_time_minutes := hours * 60 in
  let km_to_station := Candidate.distance_from_current best_station in
  share <- py_div km_to_station vehicle_range_km ;;
  let battery_used := share * 100 in
  let battery_on_arrival := current_battery st - battery_used in
  let price := get (Station.price_per_kwh (Candidate.station best_station)) (35 # 100) in
  Returned
    (Stop.mk
       segment_number
       (Station.name (Candidate.station best_station))
       (Station.city (Candidate.station best_station))
       (Station.latitude (Candidate.station best_station))
       (Station.longitude (Candidate.station best_station))
       (py_sum (map Stop.distance_traveled (stops st)) + km_to_station)
       km_to_station
       (Candidate.distance_to_destination best_station)
       (py_max battery_on_arrival min_charge_percent)
       preferred_charge_percent
       kwh_needed
       charging_power
       charging_time_minutes
       (get (Station.connector_type (Candidate.station best_station)) "CCS"%string)
       price
       (kwh_needed * price)).

(** One pass through the body of [while True]. *)
Definition iteration (st : LoopState) : Iter :=
  let segment_number := (segment_number st + 1)%Z in
  let distance_to_end :=
    haversine_distance (current_lat st) (current_lon st) end_lat end_lon in
  let remaining_range :=
    vehicle_range_km * (current_battery st - min_charge_percent) / 100 in
  if Qle_bool distance_to_end remaining_range then
    Break CanReachDestination (stops st)
  else if (10 <? segment_number)%Z then
    Break TooManySegments (stops st)
  else
    match candidate_stations st remaining_range stations with
    | [] => Break NoReachableStations (stops st)
    | c :: cs =>
        let best_station := py_max_key Candidate.progress_score c cs in
        match stop_info st segment_number best_station with
        | Raised e => Raise e
        | Returned stop =>
            let stops' := stops st ++ [stop] in
            if (10 <=? length stops')%nat then Break MaxStopsReached stops'
            else
              Continue
                (mkLoopState stops'
                   (Station.latitude (Candidate.station best_station))
                   (Station.longitude (Candidate.station best_station))
                   preferred_charge_percent
                   segment_number)
        end
    end.

(** [while True]: [None] only when [fuel] passes are not enough. *)
Fixpoint while_true (fuel : nat) (st : LoopState)
    : option (result (LogEvent * list Stop.t)) :=
  match fuel with
  | O => None
  | S fuel' =>
      match iteration st with
      | Break why result_stops => Some (Returned (why, result_stops))
      | Continue st' => while_true fuel' st'
      | Raise e => Some (Raised e)
      end
  end.

(** *** Vocabulary for the statements about the loop *)

(** The loop's local values for a station, as functions of the state. *)
Definition remaining_range_of (st : LoopState) : Q :=
  vehicle_range_km * (current_battery st - min_charge_percent) / 100.

Definition distance_to_end_of (st : LoopState) : Q :=
  haversine_distance (current_lat st) (current_lon st) end_lat end_lon.

Definition dist_from_current_of (st : LoopState) (station : Station.t) : Q :=
  haversine_distance (current_lat st) (current_lon st)
    (Station.latitude station) (Station.longitude station).

Definition dist_to_destination_of (station : Station.t) : Q :=
  haversine_distance (Station.latitude station) (Station.longitude station)
    end_lat end_lon.

Definition detour_of (st : LoopState) (station : Station.t) : Q :=
  (dist_from_current_of st station + dist_to_destination_of station)
  - distance_to_end_of st.

Definition score_of (st : LoopState) (station : Station.t) : Q :=
  (dist_from_current_of st station * 10) - (detour_of st station * 50).

(** The stations the three [continue] tests of the source let through. *)
Definition passes_filters (st : LoopState) (station : Station.t) : Prop :=
  100 <= dist_from_current_of st station
  /\ dist_from_current_of st station <= remaining_range_of st * (80 # 100)
  /\ detour_of st station <= 30.

(** The candidate set in the words of the specification: at least 100 km
    away, at most 0.80 of the remaining range away, detour below 30 km. *)
Definition spec_candidate (st : LoopState) (station : Station.t) : Prop :=
  100 <= dist_from_current_of st station
  /\ dist_from_current_of st station <= (80 # 100) * remaining_range_of st
  /\ detour_of st station < 30.

(** The entry built for a station that passes the filters. *)
Definition entry_of (st : LoopState) (station : Station.t) : Candidate.t :=
  Candidate.mk station (dist_from_current_of st station)
    (dist_to_destination_of station) (detour_of st station)
    (score_of st station).

(** The stop built for the selected station. *)
Definition stop_of (st : LoopState) (segment_number : Z) (best : Candidate.t)
    : Stop.t :=
  let kwh_needed :=
    battery_capacity_kwh * (preferred_charge_percent - current_battery st) / 100 in
  let charging_power := get (Station.power_kw (Candidate.station best)) 50 in
  let km_to_station := Candidate.distance_from_current best in
  let price := get (Station.price_per_kwh (Candidate.station best)) (35 # 100) in
  Stop.mk
    segment_number
    (Station.name (Candidate.station best))
    (Station.city (Candidate.station best))
    (Station.latitude (Candidate.station best))
    (Station.longitude (Candidate.station best))
    (py_sum (map Stop.distance_traveled (stops st)) + km_to_station)
    km_to_station
    (Candidate.distance_to_destination best)
    (py_max (current_battery st - km_to_station / vehicle_range_km * 100)
       min_charge_percent)
    preferred_charge_percent
    kwh_needed
    charging_power
    (kwh_needed / charging_power * 60)
    (get (Station.connector_type (Candidate.station best)) "CCS"%string)
    price
    (kwh_needed * price).

(** The pass through the body selects [best_station]: the destination is
    out of range, the segment guard lets the pass go on, and [best_station]
    is the [max] of a non-empty candidate list. *)
Definition selects (st : LoopState) (best_station : Candidate.t) : Prop :=
  remaining_range_of st < distance_to_end_of st
  /\ (segment_number st + 1 <= 10)%Z
  /\ exists c cs,
       candidate_stations st (remaining_range_of st) stations = c :: cs
       /\ best_station = py_max_key Candidate.progress_score c cs.

(** The state after a stop at [best_station]. *)
Definition advance (st : LoopState) (best_station : Candidate.t)
    (stop : Stop.t) : LoopState :=
  mkLoopState (stops st ++ [stop])
    (Station.latitude (Candidate.station best_station))
    (Station.longitude (Candidate.station best_station))
    preferred_charge_percent
    (segment_number st + 1)%Z.

(** The states the loop passes through from [st0]. *)
Inductive reachable (st0 : LoopState) : LoopState -> Prop :=
| reachable_start : reachable st0 st0
| reachable_step (st st' : LoopState) :
    reachable st0 st -> iteration st = Continue st' -> reachable st0 st'.

End Loop.

(** The battery level at the start of leg [i] (counted from 0): the trip's
    starting level for the first leg, the charge target afterwards. *)
Definition leg_battery (current_battery_percent preferred_charge_percent : Q)
    (i : nat) : Q :=
  match i with
  | O => current_battery_percent
  | S _ => preferred_charge_percent
  end.

(** Charging time in minutes in the words of the specification:
    [kWh / (min(stationKW, vehicleMaxKW) * 0.85)] hours. *)
Definition spec_charging_time_minutes (kwh station_kw vehicle_max_kw : Q) : Q :=
  kwh / (py_min station_kw vehicle_max_kw * (85 # 100)) * 60.

(** [_find_optimal_stops].  The loop is run with ten passes of fuel;
    [while_true_fuel] below shows that no input needs more. *)
Definition _find_optimal_stops (start_lat start_lon end_lat end_lon : Q)
    (stations : list Station.t) (vehicle_range_km battery_capacity_kwh : Q)
    (current_battery_percent min_charge_percent preferred_charge_percent : Q)
    : option (result (list Stop.t)) :=
  match
    while_true end_lat end_lon stations vehicle_range_km battery_capacity_kwh
      min_charge_percent preferred_charge_percent 10
      (mkLoopState [] start_lat start_lon current_battery_percent 0)
  with
  | Some (Returned (_, result_stops)) => Some (Returned result_stops)
  | Some (Raised e) => Some (Raised e)
  | None => None
  end.

(** [message or default]. *)
Definition message_or (message : option string) (default : string) : string :=
  match message with
  | Some EmptyString => default
  | Some m => m
  | None => default
  end.

(** [_create_route_response]. *)
Definition _create_route_response (start_lat start_lon end_lat end_lon : Q)
    (total_distance vehicle_range_km : Q) (charging_stops : list Stop.t)
    (message : option string) (tomtom_data : option TomTom.t) : Response.t :=
  let '(driving_time_minutes, traffic_delay, route_coordinates, actual_distance) :=
    match tomtom_data with
    | Some data =>
        (TomTom.time_minutes data, TomTom.traffic_delay_minutes data,
         TomTom.coordinates data, TomTom.distance_km data)
    | None =>
        let avg_speed_kmh := 80 in
        let driving_time_hours := total_distance / avg_speed_kmh in
        (driving_time_hours * 60, 0,
         [(start_lat, start_lon); (end_lat, end_lon)], total_distance)
    end in
  let total_charging_minutes :=
    py_sum (map Stop.charging_time_minutes charging_stops) in
  let total_time_minutes := driving_time_minutes + total_charging_minutes in
  let total_charging_cost := py_sum (map Stop.estimated_cost charging_stops) in
  let route_coordinates :=
    match route_coordinates with
    | [] =>
        ([(start_lat, start_lon)]
           ++ map (fun stop => (Stop.latitude stop, Stop.longitude stop))
                charging_stops)
          ++ [(end_lat, end_lon)]
    | _ => route_coordinates
    end in
  Response.mk
    true
    (message_or message "Route calculated successfully with real-time traffic")
    (RouteSummary.mk
       (py_round actual_distance 1)
       (py_round driving_time_minutes 1)
       (py_round traffic_delay 1)
       (py_round total_time_minutes 1)
       (length charging_stops)
       (py_round total_charging_minutes 1)
       (py_round (total_charging_cost * 30) 2)
       (py_round (py_sum (map Stop.kwh_charged charging_stops)) 2)
       vehicle_range_km
       (match tomtom_data with Some _ => true | None => false end))
    route_coordinates
    charging_stops
    ([Waypoint.mk Waypoint.start start_lat start_lon "Start" None]
       ++ map (fun stop =>
                 Waypoint.mk Waypoint.charging (Stop.latitude stop)
                   (Stop.longitude stop) (Stop.station_name stop)
                   (Some (Stop.segment stop)))
            charging_stops
       ++ [Waypoint.mk Waypoint.end_ end_lat end_lon "Destination" None]).

(** [calculate_charging_stops].  [all_stations] is what
    [self.charging_service.get_all_stations()] returns. *)
Definition calculate_charging_stops (all_stations : list Station.t)
    (start_lat start_lon end_lat end_lon : Q)
    (vehicle_range_km battery_capacity_kwh : Q)
    (current_battery_percent min_charge_percent preferred_charge_percent : Q)
    : option (result Response.t) :=
  let total_distance := haversine_distance start_lat start_lon end_lat end_lon in
  let usable_range :=
    vehicle_range_km * (current_battery_percent - min_charge_percent) / 100 in
  match all_stations with
  | [] =>
      let tomtom_data := get_tomtom_route start_lat start_lon end_lat end_lon [] in
      Some (Returned
        (_create_route_response start_lat start_lon end_lat end_lon
           total_distance vehicle_range_km []
           (Some "No charging stations available"%string) tomtom_data))
  | _ =>
      if Qle_bool total_distance usable_range then
        let tomtom_data := get_tomtom_route start_lat start_lon end_lat end_lon [] in
        Some (Returned
          (_create_route_response start_lat start_lon end_lat end_lon
             total_distance vehicle_range_km []
             (Some "No charging stops needed - route calculated with real-time traffic"%string)
             tomtom_data))
      else
        match
          _find_optimal_stops start_lat start_lon end_lat end_lon all_stations
            vehicle_range_km battery_capacity_kwh current_battery_percent
            min_charge_percent preferred_charge_percent
        with
        | None => None
        | Some (Raised e) => Some (Raised e)
        | Some (Returned charging_stops) =>
            let waypoints :=
              map (fun stop => (Stop.latitude stop, Stop.longitude stop))
                charging_stops in
            let tomtom_data :=
              get_tomtom_route start_lat start_lon end_lat end_lon waypoints in
            Some (Returned
              (_create_route_response start_lat start_lon end_lat end_lon
                 total_distance vehicle_range_km charging_stops None tomtom_data))
        end
  end.

End RoutePlanningService.

(** ** The charging service: connector filter and station scorer *)

Module ChargingService.

(** A station dictionary as the charging service reads it; every key is read
    with [.get]. *)
Module Station.
Record t : Type := mk {
  id : string;
  name : string;
  network : option string;
  connector_types : option (list string);
  power_kw : option Q;
  stalls : option Q;
  available_stalls : option Q;
  amenities : option (list string);
  rating : option Q;
  wait_time_minutes : option Q;
  distance_km : option Q
}.
End Station.

(** The [vehicle_specs] dictionary. *)
Module VehicleSpecs.
Record t : Type := mk {
  supported_connectors : option (list string);
  max_charging_power_kw : option Q;
  battery_capacity_kwh : option Q
}.
End VehicleSpecs.

(** The [preferences] dictionary; [other_keys] says whether it holds keys
    the scorer does not read (they make the dictionary truthy). *)
Module Preferences.
Record t : Type := mk {
  preferred_charging_networks : option (list string);
  prefer_fast_charging : option bool;
  preferred_amenities : option (list string);
  other_keys : bool
}.
End Preferences.

(** [x in l] on strings. *)
Definition py_in (x : string) (l : list string) : bool :=
  existsb (String.eqb x) l.

(** Truth value of a dictionary: false exactly when it has no key. *)
Definition dict_truthy (p : Preferences.t) : bool :=
  match Preferences.preferred_charging_networks p,
        Preferences.prefer_fast_charging p,
        Preferences.preferred_amenities p with
  | None, None, None => Preferences.other_keys p
  | _, _, _ => true
  end.

(** [any(connector in vehicle_connectors for connector in station_connectors)]. *)
Definition compatible (vehicle_specs : VehicleSpecs.t) (station : Station.t) : bool :=
  let vehicle_connectors := get (VehicleSpecs.supported_connectors vehicle_specs) [] in
  let station_connectors := get (Station.connector_types station) [] in
  existsb (fun connector => py_in connector vehicle_connectors) station_connectors.

(** [_filter_compatible_stations]. *)
Fixpoint _filter_compatible_stations (stations : list Station.t)
    (vehicle_specs : VehicleSpecs.t) : list Station.t :=
  match stations with
  | [] => []
  | station :: stations' =>
      if compatible vehicle_specs station then
        station :: _filter_compatible_stations stations' vehicle_specs
      else _filter_compatible_stations stations' vehicle_specs
  end.

(** The bonus added under [if preferences:]. *)
Definition preference_bonus (station : Station.t) (station_power : Q)
    (preferences : option Preferences.t) (score : Q) : Q :=
  match preferences with
  | None => score
  | Some p =>
      if dict_truthy p then
        let preferred_networks := get (Preferences.preferred_charging_networks p) [] in
        let score :=
          match preferred_networks, Station.network station with
          | _ :: _, Some n => if py_in n preferred_networks then score + 10 else score
          | _, _ => score
          end in
        let score :=
          if get (Preferences.prefer_fast_charging p) true
             && Qle_bool 150 station_power
          then score + 5 else score in
        let preferred_amenities := get (Preferences.preferred_amenities p) [] in
        let station_amenities := get (Station.amenities station) [] in
        let amenity_matches :=
          length (filter (fun amenity => py_in amenity station_amenities)
                    preferred_amenities) in
        score + inject_Z (Z.of_nat amenity_matches) * 2
      else score
  end.

(** [_calculate_station_score]. *)
Definition _calculate_station_score (station : Station.t)
    (vehicle_specs : VehicleSpecs.t) (preferences : option Preferences.t)
    : result Q :=
  let score := 0 in
  let score := score + (get (Station.rating station) 3 / 5) * 20 in
  let vehicle_max_power := get (VehicleSpecs.max_charging_power_kw vehicle_specs) 150 in
  let station_power := get (Station.power_kw station) 50 in
  let effective_power := py_min station_power vehicle_max_power in
  let power_score := (effective_power / 350) * 25 in
  let score := score + power_score in
  let total_stalls := get (Station.stalls station) 1 in
  let available_stalls := get (Station.available_stalls station) 1 in
  availability_ratio <- py_div available_stalls total_stalls ;;
  let score := score + availability_ratio * 20 in
  let wait_time := get (Station.wait_time_minutes station) 0 in
  let wait_score := py_max 0 (15 - wait_time) in
  let score := score + wait_score in
  let distance := get (Station.distance_km station) 0 in
  let distance_score := py_max 0 (20 - distance * 2) in
  let score := score + distance_score in
  let score := preference_bonus station station_power preferences score in
  Returned (py_min 100 score).

(** [scored_stations.sort(key=lambda x: x[1], reverse=True)]: a stable sort,
    highest score first; equal scores keep their order. *)
Fixpoint insert_by_score (x : Station.t * Q) (l : list (Station.t * Q))
    : list (Station.t * Q) :=
  match l with
  | [] => [x]
  | y :: l' =>
      if Qltb (snd x) (snd y) then y :: insert_by_score x l' else x :: y :: l'
  end.

Definition sort_by_score (l : list (Station.t * Q)) : list (Station.t * Q) :=
  fold_right insert_by_score [] l.

(** The loop that fills [scored_stations]. *)
Fixpoint score_all (stations : list Station.t) (vehicle_specs : VehicleSpecs.t)
    (preferences : option Preferences.t) : result (list (Station.t * Q)) :=
  match stations with
  | [] => Returned []
  | station :: stations' =>
      score <- _calculate_station_score station vehicle_specs preferences ;;
      rest <- score_all stations' vehicle_specs preferences ;;
      Returned ((station, score) :: rest)
  end.

(** [find_best_charging_station], given the stations that
    [_get_nearby_stations] found; any exception is caught and gives [None]. *)
Definition find_best_charging_station (nearby : list Station.t)
    (vehicle_specs : VehicleSpecs.t) (preferences : option Preferences.t)
    : option Station.t :=
  match _filter_compatible_stations nearby vehicle_specs with
  | [] => None
  | compatible_stations =>
      match score_all compatible_stations vehicle_specs preferences with
      | Raised _ => None
      | Returned scored_stations =>
          match sort_by_score scored_stations with
          | [] => None
          | best :: _ => Some (fst best)
          end
      end
  end.

(** The preference bonus in the words of the specification: +10 for a
    preferred network, +5 for fast charging at 150 kW or more, +2 for each
    matched amenity; nothing without a preference set. *)
Definition spec_bonus (station : Station.t) (preferences : option Preferences.t)
    : Q :=
  match preferences with
  | None => 0
  | Some p =>
      if dict_truthy p then
        (match Station.network station with
         | Some n =>
             if py_in n (get (Preferences.preferred_charging_networks p) [])
             then 10 else 0
         | None => 0
         end)
        + (if get (Preferences.prefer_fast_charging p) true
              && Qle_bool 150 (get (Station.power_kw station) 50)
           then 5 else 0)
        + 2 * inject_Z (Z.of_nat
                (length (filter
                   (fun amenity => py_in amenity (get (Station.amenities station) []))
                   (get (Preferences.preferred_amenities p) []))))
      else 0
  end.

(** The sum of the sub-scores in the words of the specification. *)
Definition spec_score_sum (station : Station.t) (vehicle_specs : VehicleSpecs.t)
    (preferences : option Preferences.t) : Q :=
  get (Station.rating station) 3 / 5 * 20
  + py_min (get (Station.power_kw station) 50)
      (get (VehicleSpecs.max_charging_power_kw vehicle_specs) 150) / 350 * 25
  + get (Station.available_stalls station) 1 / get (Station.stalls station) 1 * 20
  + py_max 0 (15 - get (Station.wait_time_minutes station) 0)
  + py_max 0 (20 - get (Station.distance_km station) 0 * 2)
  + spec_bonus station preferences.

(** A station with a negative rating. *)
Definition badly_rated : Station.t :=
  Station.mk "x1" "Rated" None None None None None None (Some (-30)) None None.

(** A station that reports no stall at all. *)
Definition no_stalls : Station.t :=
  Station.mk "x2" "Closed" None None None (Some 0) (Some 0) None None None None.

Definition any_vehicle : VehicleSpecs.t := VehicleSpecs.mk None None None.

(** The first mock station of [_get_nearby_stations] and a vehicle that can
    use it. *)
Definition tesla_sc_001 : Station.t :=
  Station.mk "tesla_sc_001" "Tesla Supercharger - Mall" (Some "Tesla"%string)
    (Some ["Tesla"%string; "CCS1"%string]) (Some 250) (Some 12) (Some 8)
    (Some ["Shopping"%string; "Restaurant"%string; "WiFi"%string])
    (Some (45 # 10)) (Some 0) (Some (1 # 2)).

Definition evgo_001 : Station.t :=
  Station.mk "evgo_001" "EVgo Fast Charge" (Some "EVgo"%string)
    (Some ["CCS1"%string; "CHAdeMO"%string]) (Some 100) (Some 4) (Some 2)
    (Some ["Grocery Store"%string]) (Some (38 # 10)) (Some 15) (Some 1).

Definition ccs_vehicle : VehicleSpecs.t :=
  VehicleSpecs.mk (Some ["CCS1"%string]) (Some 170) (Some 77).

Definition tesla_only_vehicle : VehicleSpecs.t :=
  VehicleSpecs.mk (Some ["Tesla"%string]) (Some 250) (Some 75).

Definition fast_and_wifi : Preferences.t :=
  Preferences.mk (Some ["Tesla"%string]) None (Some ["WiFi"%string]) true.

End ChargingService.

(** ** The route optimizer agent: charging time *)

Module RouteOptimizerAgent.

(** [_calculate_charging_time]: [charge_needed] is a fraction of the battery. *)
Definition _calculate_charging_time (charge_needed : Q)
    (vehicle_specs : ChargingService.VehicleSpecs.t)
    (charging_station : ChargingService.Station.t) : result Z :=
  let battery_capacity :=
    get (ChargingService.VehicleSpecs.battery_capacity_kwh vehicle_specs) 60 in
  let max_charging_power :=
    get (ChargingService.VehicleSpecs.max_charging_power_kw vehicle_specs) 50 in
  let energy_to_add := charge_needed * battery_capacity in
  match ChargingService.Station.power_kw charging_station with
  | None => Raised (KeyError "power_kw")
  | Some station_power =>
      let charging_power := py_min station_power max_charging_power in
      let avg_charging_efficiency := 85 # 100 in
      charging_time_hours <-
        py_div energy_to_add (charging_power * avg_charging_efficiency) ;;
      Returned (py_int (charging_time_hours * 60))
  end.

End RouteOptimizerAgent.

(** ** A concrete geometry for examples

    A grid distance at 111.19 km per degree (the length of one degree of
    longitude on the equator): on points of the equator it is the
    great-circle distance to the metre. *)
Definition grid_distance (lat1 lon1 lat2 lon2 : Q) : Q :=
  (11119 # 100) * (Qabs (lat2 - lat1) + Qabs (lon2 - lon1)).

(** A routing provider that never answers. *)
Definition no_tomtom (_ _ _ _ : Q) (_ : list (Q * Q)) : option TomTom.t := None.

(** Four stations on the equator, two degrees of longitude apart, with the
    connector type and price that [get_all_stations] derives from the power. *)
Definition corridor : list Station.t :=
  [ Station.mk "Alfa" "West" 0 2 (Some 50)
      (Some "DC Fast Charge (CCS)"%string) (Some (35 # 100));
    Station.mk "Bravo" "West" 0 4 (Some 150)
      (Some "DC Fast Charge (CCS/CHAdeMO)"%string) (Some (45 # 100));
    Station.mk "Charlie" "East" 0 6 None None None;
    Station.mk "Delta" "East" 0 8 (Some 22)
      (Some "AC Type 2"%string) (Some (25 # 100)) ].

(** The trip along the equator from longitude 0 to longitude 10 (1111.9 km)
    with a 600 km vehicle at 70%: four stops. *)
Definition corridor_trip : option (result (list Stop.t)) :=
  _find_optimal_stops grid_distance 0 0 0 10 corridor 600 75 70 20 80.

Definition corridor_stops : list Stop.t :=
  Eval vm_compute in
    match corridor_trip with
    | Some (Returned l) => l
    | _ => []
    end.

(** The same trip with a 400 km vehicle at 90%: after the first stop no
    station passes the filters and the destination stays out of range. *)
Definition short_range_stops : list Stop.t :=
  Eval vm_compute in
    match _find_optimal_stops grid_distance 0 0 0 10 corridor 400 75 90 20 80 with
    | Some (Returned l) => l
    | _ => []
    end.

(** A station whose detour on the trip from (0, 0) to (0, 10) is exactly
    30 km. *)
Definition edge_station : Station.t :=
  Station.mk "Edge" "North" (1500 # 11119) 2 (Some 50) None None.

(** A station with no power. *)
Definition dead_station : Station.t :=
  Station.mk "Dead" "West" 0 2 (Some 0) None None.

(** Compatibility of a stop with a vehicle in the words of the
    specification: the connector type of the stop's station is one of the
    vehicle's supported connectors. *)
Definition spec_stop_compatible (supported_connectors : list string)
    (stop : Stop.t) : bool :=
  ChargingService.py_in (Stop.connector_type stop) supported_connectors.

(** ** More of the code: vocabulary for the planner's exits *)

(** The distance still to drive after the last stop of a plan: the stop's
    [distance_to_destination], or the whole trip when there is no stop. *)
Definition final_leg_distance (haversine_distance : Q -> Q -> Q -> Q -> Q)
    (start_lat start_lon end_lat end_lon : Q) (l : list Stop.t) : Q :=
  match rev l with
  | last_stop :: _ => Stop.distance_to_destination last_stop
  | [] => haversine_distance start_lat start_lon end_lat end_lon
  end.

(** The loop invariant behind the exits: the position is the last stop's
    station, the battery is the leg's starting level, the segment counter
    counts the stops, and fewer than ten stops are placed. *)
Definition on_route (haversine_distance : Q -> Q -> Q -> Q -> Q)
    (start_lat start_lon end_lat end_lon : Q)
    (current_battery_percent preferred_charge_percent : Q)
    (st : LoopState) : Prop :=
  distance_to_end_of haversine_distance end_lat end_lon st
    = final_leg_distance haversine_distance start_lat start_lon end_lat end_lon
        (stops st)
  /\ current_battery st
     = leg_battery current_battery_percent preferred_charge_percent
         (length (stops st))
  /\ segment_number st = Z.of_nat (length (stops st))
  /\ (length (stops st) < 10)%nat.

(** ** The charging station service: the catalogue *)

Module ChargingStationService.

(** A row of [stations_df] after the columns are renamed; [power_kw] is
    [None] when the record has no such key. *)
Module Row.
Record t : Type := mk {
  name : string;
  city : string;
  latitude : Q;
  longitude : Q;
  power_kw : option Q
}.
End Row.

(** A station dictionary as [get_all_stations] returns it; [distance_km] is
    the key that [get_stations_in_radius] adds. *)
Module Entry.
Record t : Type := mk {
  name : string;
  city : string;
  latitude : Q;
  longitude : Q;
  power_kw : option Q;
  connector_type : string;
  charging_speed : string;
  price_per_kwh : Q;
  availability : string;
  total_ports : Z;
  available_ports : Z;
  distance_km : option Q
}.
End Entry.

(** The body of the loop of [get_all_stations] for one record. *)
Definition add_metadata (station : Row.t) : Entry.t :=
  let power := get (Row.power_kw station) 50 in
  let '(connector_type, charging_speed) :=
    if Qle_bool 150 power then
      ("DC Fast Charge (CCS/CHAdeMO)"%string, "Ultra Fast"%string)
    else if Qle_bool 50 power then
      ("DC Fast Charge (CCS)"%string, "Fast"%string)
    else ("AC Type 2"%string, "Normal"%string) in
  let price_per_kwh :=
    if Qle_bool 150 power then 45 # 100
    else if Qle_bool 50 power then 35 # 100
    else 25 # 100 in
  Entry.mk (Row.name station) (Row.city station) (Row.latitude station)
    (Row.longitude station) (Row.power_kw station)
    connector_type charging_speed price_per_kwh "Available"
    (if Qle_bool 50 power then 2 else 4)%Z
    (if Qle_bool 50 power then 1 else 2)%Z
    None.

(** [get_all_stations]; [stations_df] is [None] before loading. *)
Definition get_all_stations (stations_df : option (list Row.t)) : list Entry.t :=
  match stations_df with
  | None => []
  | Some [] => []
  | Some rows => map add_metadata rows
  end.

(** [self.stations_df['power_kw']]: the column, or [KeyError] when a record
    lacks the key. *)
Fixpoint power_column (rows : list Row.t) : result (list Q) :=
  match rows with
  | [] => Returned []
  | row :: rows' =>
      match Row.power_kw row with
      | None => Raised (KeyError "power_kw")
      | Some power =>
          rest <- power_column rows' ;;
          Returned (power :: rest)
      end
  end.

(** [get_stations_by_power]: the filtered frame is computed and then the
    whole catalogue is returned. *)
Definition get_stations_by_power (stations_df : option (list Row.t))
    (min_power max_power : Q) : result (list Entry.t) :=
  match stations_df with
  | None => Returned []
  | Some [] => Returned []
  | Some rows =>
      column <- power_column rows ;;
      let filtered_df :=
        map fst
          (filter (fun rp => Qle_bool min_power (snd rp)
                             && Qle_bool (snd rp) max_power)
             (combine rows column)) in
      let stations := filtered_df in
      Returned (get_all_stations stations_df)
  end.

(** [nearby_stations.sort(key=lambda x: x.get('distance_km', inf))]: a
    stable sort, smallest distance first; a missing key sorts last. *)
Definition closer (a b : Entry.t) : bool :=
  match Entry.distance_km a, Entry.distance_km b with
  | Some da, Some db => Qltb da db
  | Some _, None => true
  | None, _ => false
  end.

Fixpoint insert_by_distance (x : Entry.t) (l : list Entry.t) : list Entry.t :=
  match l with
  | [] => [x]
  | y :: l' =>
      if closer y x then y :: insert_by_distance x l' else x :: y :: l'
  end.

Definition sort_by_distance (l : list Entry.t) : list Entry.t :=
  fold_right insert_by_distance [] l.

(** [station['distance_km'] = d]. *)
Definition set_distance (station : Entry.t) (d : Q) : Entry.t :=
  Entry.mk (Entry.name station) (Entry.city station)
    (Entry.latitude station) (Entry.longitude station)
    (Entry.power_kw station) (Entry.connector_type station)
    (Entry.charging_speed station) (Entry.price_per_kwh station)
    (Entry.availability station) (Entry.total_ports station)
    (Entry.available_ports station) (Some d).

(** [a] is listed no later than [b]: both carry a distance and [a]'s is not
    the greater. *)
Definition not_farther (a b : Entry.t) : Prop :=
  exists da db,
    Entry.distance_km a = Some da /\ Entry.distance_km b = Some db /\ da <= db.

(** The loop of [get_stations_in_radius]; [haversine] is the local
    great-circle function. *)
Fixpoint within_radius (haversine : Q -> Q -> Q -> Q -> Q)
    (latitude longitude radius_km : Q) (stations : list Entry.t)
    : list Entry.t :=
  match stations with
  | [] => []
  | station :: stations' =>
      let distance :=
        haversine latitude longitude
          (Entry.latitude station) (Entry.longitude station) in
      if Qle_bool distance radius_km then
        set_distance station (py_round distance 2)
        :: within_radius haversine latitude longitude radius_km stations'
      else within_radius haversine latitude longitude radius_km stations'
  end.

(** [get_stations_in_radius]. *)
Definition get_stations_in_radius (haversine : Q -> Q -> Q -> Q -> Q)
    (stations_df : option (list Row.t)) (latitude longitude radius_km : Q)
    : list Entry.t :=
  match stations_df with
  | None => []
  | Some [] => []
  | Some _ =>
      let stations := get_all_stations stations_df in
      sort_by_distance
        (within_radius haversine latitude longitude radius_km stations)
  end.

(** The same dictionary as the route planner reads it. *)
Definition as_station (entry : Entry.t) : Station.t :=
  Station.mk (Entry.name entry) (Entry.city entry) (Entry.latitude entry)
    (Entry.longitude entry) (Entry.power_kw entry)
    (Some (Entry.connector_type entry)) (Some (Entry.price_per_kwh entry)).

(** The price that [get_all_stations] gives a station of this power. *)
Definition price_band (power : Q) : Q :=
  if Qle_bool 150 power then 45 # 100
  else if Qle_bool 50 power then 35 # 100
  else 25 # 100.

(** Three rows: an ultra-fast, a fast and a slow station. *)
Definition sample_rows : list Row.t :=
  [ Row.mk "Alfa" "West" 0 2 (Some 180);
    Row.mk "Bravo" "West" 0 4 (Some 60);
    Row.mk "Charlie" "East" 0 6 (Some 22);
    Row.mk "Delta" "East" 0 8 None ].

End ChargingStationService.

(** ** The charging service: charging time estimate *)

Module ChargingEstimate.

Record t : Type := mk {
  charging_time_minutes : Z;
  energy_added_kwh : Q;
  estimated_cost : Q;
  effective_power_kw : Q;
  average_power_kw : Q
}.

(** The simplified charging curve: the share of the effective power that is
    delivered on average, by state of charge at the start. *)
Definition curve_share (current_soc : Q) : Q :=
  if Qltb current_soc (2 # 10) then 95 # 100
  else if Qltb current_soc (5 # 10) then 9 # 10
  else if Qltb current_soc (8 # 10) then 7 # 10
  else 4 # 10.

(** [get_charging_time_estimate]; the states of charge are fractions. *)
Definition get_charging_time_estimate
    (vehicle_specs : ChargingService.VehicleSpecs.t)
    (station_power_kw current_soc target_soc : Q) : result t :=
  let battery_capacity :=
    get (ChargingService.VehicleSpecs.battery_capacity_kwh vehicle_specs) 75 in
  let vehicle_max_power :=
    get (ChargingService.VehicleSpecs.max_charging_power_kw vehicle_specs) 150 in
  let effective_power := py_min station_power_kw vehicle_max_power in
  let energy_needed := (target_soc - current_soc) * battery_capacity in
  let avg_power :=
    if Qltb current_soc (2 # 10) then effective_power * (95 # 100)
    else if Qltb current_soc (5 # 10) then effective_power * (9 # 10)
    else if Qltb current_soc (8 # 10) then effective_power * (7 # 10)
    else effective_power * (4 # 10) in
  charging_time_hours <- py_div energy_needed avg_power ;;
  let charging_time_minutes := py_int (charging_time_hours * 60) in
  let cost_per_kwh := 28 # 100 in
  let estimated_cost := energy_needed * cost_per_kwh in
  Returned
    (mk charging_time_minutes (py_round energy_needed 2)
       (py_round estimated_cost 2) effective_power (py_round avg_power 1)).

End ChargingEstimate.

(** ** The navigation service: the base route *)

Module NavigationService.

(** A route segment dictionary; the optimizer reads [elevation_gain_m] and
    [avg_speed_kmh] with [.get]. *)
Module Segment.
Record t : Type := mk {
  segment_id : Z;
  start : Q * Q;
  end_ : Q * Q;
  distance_km : Q;
  estimated_time_minutes : Z;
  elevation_gain_m : option Q;
  avg_speed_kmh : option Q
}.
End Segment.

Module BaseRoute.
Record t : Type := mk {
  start : Q * Q;
  destination : Q * Q;
  total_distance_km : Q;
  estimated_time_minutes : Z;
  segments : list Segment.t
}.
End BaseRoute.

(** The body of [for i in range(num_segments)]. *)
Definition segment_at (start destination : Q * Q) (distance_km : Q)
    (num_segments : Z) (i : Z) : Segment.t :=
  let segment_start_lat :=
    fst start + (fst destination - fst start)
                * (inject_Z i / inject_Z num_segments) in
  let segment_start_lon :=
    snd start + (snd destination - snd start)
                * (inject_Z i / inject_Z num_segments) in
  let segment_end_lat :=
    fst start + (fst destination - fst start)
                * (inject_Z (i + 1) / inject_Z num_segments) in
  let segment_end_lon :=
    snd start + (snd destination - snd start)
                * (inject_Z (i + 1) / inject_Z num_segments) in
  let segment_distance := distance_km / inject_Z num_segments in
  Segment.mk i
    (segment_start_lat, segment_start_lon)
    (segment_end_lat, segment_end_lon)
    segment_distance
    (py_int (segment_distance * (12 # 10)))
    (Some (inject_Z (Z.max 0 ((i mod 3 - 1) * 100))))
    (Some 80).

(** [calculate_base_route]; [_calculate_distance] is the great-circle
    distance. *)
Definition calculate_base_route (_calculate_distance : Q -> Q -> Q -> Q -> Q)
    (start destination : Q * Q) : BaseRoute.t :=
  let distance_km :=
    _calculate_distance (fst start) (snd start) (fst destination)
      (snd destination) in
  let num_segments := Z.max 2 (py_int (distance_km / 100)) in
  let segments :=
    map (fun i => segment_at start destination distance_km num_segments
                    (Z.of_nat i))
      (seq 0 (Z.to_nat num_segments)) in
  BaseRoute.mk start destination distance_km
    (py_int (distance_km * (12 # 10))) segments.

End NavigationService.

(** ** The route optimizer agent: energy analysis and metrics *)

Module RouteOptimizer.

Import NavigationService.

(** The [vehicle_specs] dictionary as the optimizer reads it. *)
Module VehicleSpecs.
Record t : Type := mk {
  energy_consumption_kwh_per_100km : option Q;
  battery_capacity_kwh : option Q;
  max_charging_power_kw : option Q;
  supported_connectors : option (list string)
}.
End VehicleSpecs.

(** The same dictionary as the charging service reads it. *)
Definition as_service_specs (vehicle_specs : VehicleSpecs.t)
    : ChargingService.VehicleSpecs.t :=
  ChargingService.VehicleSpecs.mk
    (VehicleSpecs.supported_connectors vehicle_specs)
    (VehicleSpecs.max_charging_power_kw vehicle_specs)
    (VehicleSpecs.battery_capacity_kwh vehicle_specs).

Definition SAFETY_BUFFER_PERCENTAGE : Q := 20 # 100.
Definition MAX_CHARGING_DETOUR_KM : Q := 10.
Definition PREFERRED_CHARGING_LEVEL : Q := 80 # 100.

Module EnergyAnalysis.
Record t : Type := mk {
  needs_charging : bool;
  total_energy_needed : Q;
  available_energy : Q;
  energy_deficit : Q;
  estimated_final_battery : Q
}.
End EnergyAnalysis.

(** [_analyze_energy_requirements]; the battery level is a fraction. *)
Definition _analyze_energy_requirements (base_route : BaseRoute.t)
    (vehicle_specs : VehicleSpecs.t) (current_battery_level : Q)
    : result EnergyAnalysis.t :=
  let total_distance := BaseRoute.total_distance_km base_route in
  let consumption_rate :=
    get (VehicleSpecs.energy_consumption_kwh_per_100km vehicle_specs) 20 in
  let base_consumption := total_distance * consumption_rate / 100 in
  let elevation_factor := 11 # 10 in
  let weather_factor := 105 # 100 in
  let total_energy_needed := base_consumption * elevation_factor * weather_factor in
  let battery_capacity := get (VehicleSpecs.battery_capacity_kwh vehicle_specs) 60 in
  let current_energy_kwh := battery_capacity * current_battery_level in
  let safety_energy := battery_capacity * SAFETY_BUFFER_PERCENTAGE in
  let usable_energy := current_energy_kwh - safety_energy in
  let needs_charging := Qltb usable_energy total_energy_needed in
  final <- py_div (current_energy_kwh - total_energy_needed) battery_capacity ;;
  Returned
    (EnergyAnalysis.mk needs_charging total_energy_needed usable_energy
       (py_max 0 (total_energy_needed - usable_energy))
       (py_max 0 final)).

(** [_calculate_segment_energy]. *)
Definition _calculate_segment_energy (segment : Segment.t)
    (vehicle_specs : VehicleSpecs.t) : Q :=
  let consumption_rate :=
    get (VehicleSpecs.energy_consumption_kwh_per_100km vehicle_specs) 20 in
  let base_consumption := Segment.distance_km segment * consumption_rate / 100 in
  let elevation_factor :=
    1 + (get (Segment.elevation_gain_m segment) 0 / 1000 * (1 # 10)) in
  let speed_factor :=
    1 + (py_max 0 (get (Segment.avg_speed_kmh segment) 80 - 80) / 100 * (1 # 10)) in
  base_consumption * elevation_factor * speed_factor.

(** The [ChargingStop] model of the navigation models. *)
Module ChargingStop.
Record t : Type := mk {
  station_id : string;
  station_name : string;
  location : Q * Q;
  connector_type : string;
  charging_power_kw : Q;
  estimated_charging_time_minutes : Z;
  estimated_cost : Q;
  battery_level_before : Q;
  battery_level_after : Q
}.
End ChargingStop.

(** The loop of [_plan_charging_stops].  [nearby location] is what
    [_get_nearby_stations] finds within [MAX_CHARGING_DETOUR_KM].  The
    station dictionaries of the charging service have the keys [id] and
    [name] but no key [location], so building the [ChargingStop] raises
    [KeyError] at [charging_station['location']], after the charging time
    was computed. *)
Fixpoint plan_segments (nearby : Q * Q -> list ChargingService.Station.t)
    (vehicle_specs : VehicleSpecs.t)
    (preferences : option ChargingService.Preferences.t)
    (route_segments : list Segment.t) (current_battery current_position : Q)
    (charging_stops : list ChargingStop.t) : result (list ChargingStop.t) :=
  match route_segments with
  | [] => Returned charging_stops
  | segment :: rest =>
      let battery_capacity :=
        get (VehicleSpecs.battery_capacity_kwh vehicle_specs) 60 in
      let segment_energy := _calculate_segment_energy segment vehicle_specs in
      let segment_distance := Segment.distance_km segment in
      let energy_needed :=
        segment_energy + (battery_capacity * SAFETY_BUFFER_PERCENTAGE) in
      let available_energy := battery_capacity * current_battery in
      state <-
        (if Qltb available_energy energy_needed then
           match
             ChargingService.find_best_charging_station
               (nearby (Segment.start segment))
               (as_service_specs vehicle_specs) preferences
           with
           | Some charging_station =>
               let charge_needed := PREFERRED_CHARGING_LEVEL - current_battery in
               charging_time <-
                 RouteOptimizerAgent._calculate_charging_time charge_needed
                   (as_service_specs vehicle_specs) charging_station ;;
               Raised (KeyError "location")
           | None => Returned (charging_stops, current_battery)
           end
         else Returned (charging_stops, current_battery)) ;;
      battery_consumption <- py_div segment_energy battery_capacity ;;
      plan_segments nearby vehicle_specs preferences rest
        (py_max 0 (snd state - battery_consumption))
        (current_position + segment_distance)
        (fst state)
  end.

(** [_plan_charging_stops]. *)
Definition _plan_charging_stops
    (nearby : Q * Q -> list ChargingService.Station.t)
    (base_route : BaseRoute.t) (vehicle_specs : VehicleSpecs.t)
    (current_battery_level : Q)
    (preferences : option ChargingService.Preferences.t)
    : result (list ChargingStop.t) :=
  plan_segments nearby vehicle_specs preferences
    (BaseRoute.segments base_route) current_battery_level 0 [].

(** A waypoint as [_calculate_route_metrics] reads it. *)
Module Waypoint.
Record t : Type := mk {
  waypoint_type : string;
  estimated_charging_time : option Z;
  distance_to_next : option Q
}.
End Waypoint.

Module RouteMetrics.
Record t : Type := mk {
  total_distance : Q;
  total_time : Z;
  total_energy : Q;
  final_battery : Q;
  efficiency_score : Q
}.
End RouteMetrics.

(** [x or 0] for an optional number: [None] and 0 both give 0. *)
Definition or_zero (x : option Q) : Q := get x 0.

Definition or_zero_int (x : option Z) : Z := get x 0%Z.

(** [_calculate_route_metrics]. *)
Definition _calculate_route_metrics (waypoints : list Waypoint.t)
    (vehicle_specs : VehicleSpecs.t) (initial_battery : Q)
    : result RouteMetrics.t :=
  let consumption_rate :=
    get (VehicleSpecs.energy_consumption_kwh_per_100km vehicle_specs) 20 in
  let battery_capacity := get (VehicleSpecs.battery_capacity_kwh vehicle_specs) 60 in
  let total_distance :=
    py_sum (map (fun w => or_zero (Waypoint.distance_to_next w)) waypoints) in
  let total_time :=
    fold_left Z.add
      (map (fun w => or_zero_int (Waypoint.estimated_charging_time w))
         (filter (fun w => String.eqb (Waypoint.waypoint_type w) "charging")
            waypoints))
      0%Z in
  let total_energy := total_distance * consumption_rate / 100 in
  used <- py_div total_energy battery_capacity ;;
  let final_battery := py_max 0 (initial_battery - used) in
  let efficiency_score :=
    py_min 100
      (total_distance / py_max 1 (inject_Z total_time / 60) * 10) in
  Returned
    (RouteMetrics.mk total_distance (total_time + 120)%Z total_energy
       final_battery efficiency_score).

(** The vehicle of the examples: 15 kWh/100 km, 75 kWh. *)
Definition sample_vehicle : VehicleSpecs.t :=
  VehicleSpecs.mk (Some 15) (Some 75) (Some 170) (Some ["CCS1"%string]).

(** The charging service's mock stations around any location. *)
Definition mock_nearby (_ : Q * Q) : list ChargingService.Station.t :=
  [ChargingService.tesla_sc_001; ChargingService.evgo_001].

End RouteOptimizer.

(** ** More concrete inputs *)

(** The corridor trip with a 400 km vehicle at 90% and a charge target of
    50%: after the first charge the usable range is 120 km. *)
Definition low_target_stops : list Stop.t :=
  Eval vm_compute in
    match _find_optimal_stops grid_distance 0 0 0 10 corridor 400 75 90 20 50 with
    | Some (Returned l) => l
    | _ => []
    end.

(** The corridor trip on the catalogue of [get_all_stations]. *)
Definition catalogue_stops : list Stop.t :=
  Eval vm_compute in
    match
      _find_optimal_stops grid_distance 0 0 0 10
        (map ChargingStationService.as_station
           (ChargingStationService.get_all_stations
              (Some ChargingStationService.sample_rows)))
        600 75 70 20 80
    with
    | Some (Returned l) => l
    | _ => []
    end.

(** The base route along the equator from longitude 0 to longitude 10. *)
Definition sample_route : NavigationService.BaseRoute.t :=
  NavigationService.calculate_base_route grid_distance (0, 0) (0, 10).

(** A segment of 100 km that climbs 100 m at 90 km/h. *)
Definition sample_segment : NavigationService.Segment.t :=
  NavigationService.Segment.mk 0 (0, 0) (0, 1) 100 120 (Some 100) (Some 90).

(** ** Facts about the Python numerics *)

Lemma Qltb_true (x y : Q) : Qltb x y = true <-> x < y.
Proof.
  unfold Qltb. rewrite negb_true_iff.
  split; intro H.
  - apply Qnot_le_lt. intro Hle. apply Qle_bool_iff in Hle. congruence.
  - destruct (Qle_bool y x) eqn:E; [|reflexivity].
    apply Qle_bool_iff in E. exfalso. apply (Qlt_not_le x y); assumption.
Qed.

Lemma Qltb_false (x y : Q) : Qltb x y = false <-> y <= x.
Proof.
  unfold Qltb. rewrite negb_false_iff. apply Qle_bool_iff.
Qed.

Lemma Qle_bool_false (x y : Q) : Qle_bool x y = false <-> y < x.
Proof.
  rewrite <- Qltb_true. unfold Qltb.
  destruct (Qle_bool x y); simpl; split; congruence.
Qed.

Lemma py_div_Returned (x y q : Q) :
  py_div x y = Returned q <-> ~ y == 0 /\ q = x / y.
Proof.
  unfold py_div. destruct (Qeq_bool y 0) eqn:E.
  - apply Qeq_bool_iff in E. split; [discriminate | intros [H _]; contradiction].
  - apply Qeq_bool_neq in E. split.
    + intros H. inversion H. split; [assumption | reflexivity].
    + intros [_ ->]. reflexivity.
Qed.

Lemma py_div_Raised (x y : Q) :
  py_div x y = Raised ZeroDivisionError <-> y == 0.
Proof.
  unfold py_div. destruct (Qeq_bool y 0) eqn:E.
  - apply Qeq_bool_iff in E. split; [auto | intros _; reflexivity].
  - apply Qeq_bool_neq in E. split; [discriminate | contradiction].
Qed.

Lemma py_max_ge_r (a b : Q) : b <= py_max a b.
Proof.
  unfold py_max. destruct (Qltb a b) eqn:E.
  - apply Qle_refl.
  - apply Qltb_false in E. assumption.
Qed.

Lemma py_max_ge_l (a b : Q) : a <= py_max a b.
Proof.
  unfold py_max. destruct (Qltb a b) eqn:E.
  - apply Qltb_true in E. apply Qlt_le_weak. assumption.
  - apply Qle_refl.
Qed.

Lemma py_max_l (a b : Q) : b <= a -> py_max a b = a.
Proof.
  intro H. unfold py_max. apply Qltb_false in H. rewrite H. reflexivity.
Qed.

Lemma py_min_le_l (a b : Q) : py_min a b <= a.
Proof.
  unfold py_min. destruct (Qltb b a) eqn:E.
  - apply Qltb_true in E. apply Qlt_le_weak. assumption.
  - apply Qle_refl.
Qed.

Lemma py_min_le_r (a b : Q) : py_min a b <= b.
Proof.
  unfold py_min. destruct (Qltb b a) eqn:E.
  - apply Qle_refl.
  - apply Qltb_false in E. assumption.
Qed.

Lemma py_min_cases (a b : Q) : py_min a b = a \/ py_min a b = b.
Proof. unfold py_min. destruct (Qltb b a); auto. Qed.

(** [max(..., key=...)] returns an element of the iterable whose key no other
    element exceeds. *)
Lemma py_max_key_In {A : Type} (key : A -> Q) (l : list A) (best : A) :
  In (py_max_key key best l) (best :: l).
Proof.
  revert best. induction l as [|x l IH]; intro best; simpl.
  - left. reflexivity.
  - destruct (IH (if Qltb (key best) (key x) then x else best)) as [H|H].
    + destruct (Qltb (key best) (key x)); rewrite <- H; auto.
    + right. right. assumption.
Qed.

Lemma py_max_key_ge_best {A : Type} (key : A -> Q) (l : list A) (best : A) :
  key best <= key (py_max_key key best l).
Proof.
  revert best. induction l as [|x l IH]; intro best; simpl.
  - apply Qle_refl.
  - destruct (Qltb (key best) (key x)) eqn:E.
    + apply Qltb_true in E. eapply Qle_trans; [apply Qlt_le_weak, E | apply IH].
    + apply IH.
Qed.

Lemma py_max_key_max {A : Type} (key : A -> Q) (l : list A) (best x : A) :
  In x (best :: l) -> key x <= key (py_max_key key best l).
Proof.
  revert best. induction l as [|y l IH]; intros best [H|H].
  - subst. apply Qle_refl.
  - contradiction.
  - subst. apply py_max_key_ge_best.
  - simpl. destruct H as [H|H].
    + subst y. destruct (Qltb (key best) (key x)) eqn:E.
      * apply py_max_key_ge_best.
      * apply Qltb_false in E.
        eapply Qle_trans; [exact E | apply py_max_key_ge_best].
    + apply IH. right. assumption.
Qed.

Lemma py_sum_from (l : list Q) (a : Q) : fold_left Qplus l a == a + py_sum l.
Proof.
  unfold py_sum. revert a. induction l as [|x l IH]; intro a; simpl.
  - lra.
  - rewrite (IH (a + x)), (IH (0 + x)). lra.
Qed.

Lemma py_sum_app (l : list Q) (x : Q) : py_sum (l ++ [x]) = py_sum l + x.
Proof. unfold py_sum. rewrite fold_left_app. reflexivity. Qed.

(** [max(..., key=...)] keeps the first of the elements with the greatest
    key: everything before the result has a strictly smaller key. *)
Lemma py_max_key_first {A : Type} (key : A -> Q) (l : list A) (best : A) :
  exists l1 l2,
    best :: l = l1 ++ py_max_key key best l :: l2
    /\ (forall x, In x l1 -> key x < key (py_max_key key best l))
    /\ (forall x, In x l2 -> key x <= key (py_max_key key best l)).
Proof.
  revert best. induction l as [|x l IH]; intro best; simpl.
  - exists [], []. repeat split; intros y [].
  - destruct (Qltb (key best) (key x)) eqn:E.
    + apply Qltb_true in E.
      destruct (IH x) as (l1 & l2 & Heq & H1 & H2).
      exists (best :: l1), l2. rewrite Heq. repeat split; auto.
      intros y [<-|Hy]; [|auto].
      eapply Qlt_le_trans; [exact E | apply py_max_key_ge_best].
    + apply Qltb_false in E.
      destruct (IH best) as (l1 & l2 & Heq & H1 & H2).
      destruct l1 as [|b l1'].
      * simpl in Heq. injection Heq as Hb Hl.
        exists [], (x :: l2). simpl. split; [|split].
        -- rewrite <- Hb, <- Hl. reflexivity.
        -- intros y [].
        -- intros y [<-|Hy]; [rewrite <- Hb; exact E | apply H2; exact Hy].
      * simpl in Heq. injection Heq as Hb Hl. subst b.
        exists (best :: x :: l1'), l2. simpl. split; [|split].
        -- rewrite <- Hl. reflexivity.
        -- intros y [<-|[<-|Hy]].
           ++ apply H1. left. reflexivity.
           ++ eapply Qle_lt_trans; [exact E | apply H1; left; reflexivity].
           ++ apply H1. right. exact Hy.
        -- exact H2.
Qed.

(** ** Facts about one pass through the loop body *)

Section RoutePlanningFacts.

Variable haversine_distance : Q -> Q -> Q -> Q -> Q.
Variable get_tomtom_route : Q -> Q -> Q -> Q -> list (Q * Q) -> option TomTom.t.

Section LoopFacts.

Variables end_lat end_lon : Q.
Variable stations : list Station.t.
Variables vehicle_range_km battery_capacity_kwh : Q.
Variables min_charge_percent preferred_charge_percent : Q.

Local Abbreviation rr := (remaining_range_of vehicle_range_km min_charge_percent).
Local Abbreviation to_end := (distance_to_end_of haversine_distance end_lat end_lon).
Local Abbreviation dfc := (dist_from_current_of haversine_distance).
Local Abbreviation dtd := (dist_to_destination_of haversine_distance end_lat end_lon).
Local Abbreviation detour := (detour_of haversine_distance end_lat end_lon).
Local Abbreviation score := (score_of haversine_distance end_lat end_lon).
Local Abbreviation passes :=
  (passes_filters haversine_distance end_lat end_lon vehicle_range_km
     min_charge_percent).
Local Abbreviation cand := (candidate haversine_distance end_lat end_lon).
Local Abbreviation cands := (candidate_stations haversine_distance end_lat end_lon).
Local Abbreviation info :=
  (stop_info vehicle_range_km battery_capacity_kwh min_charge_percent
     preferred_charge_percent).
Local Abbreviation iter :=
  (iteration haversine_distance end_lat end_lon stations vehicle_range_km
     battery_capacity_kwh min_charge_percent preferred_charge_percent).
Local Abbreviation loop :=
  (while_true haversine_distance end_lat end_lon stations vehicle_range_km
     battery_capacity_kwh min_charge_percent preferred_charge_percent).
Local Abbreviation sel :=
  (selects haversine_distance end_lat end_lon stations vehicle_range_km
     min_charge_percent).
Local Abbreviation adv := (advance preferred_charge_percent).
Local Abbreviation entry_of := (entry_of haversine_distance end_lat end_lon).
Local Abbreviation stop_of :=
  (stop_of vehicle_range_km battery_capacity_kwh min_charge_percent
     preferred_charge_percent).
Local Abbreviation reach :=
  (reachable haversine_distance end_lat end_lon stations vehicle_range_km
     battery_capacity_kwh min_charge_percent preferred_charge_percent).

Lemma candidate_Some (st : LoopState) (station : Station.t) (c : Candidate.t) :
  cand st (rr st) station = Some c <->
  passes st station /\ c = entry_of st station.
Proof.
  unfold candidate, passes_filters, entry_of, score_of, detour_of,
    dist_from_current_of, dist_to_destination_of, distance_to_end_of.
  set (d := haversine_distance (current_lat st) (current_lon st)
              (Station.latitude station) (Station.longitude station)).
  set (e := haversine_distance (Station.latitude station)
              (Station.longitude station) end_lat end_lon).
  set (t := haversine_distance (current_lat st) (current_lon st) end_lat end_lon).
  destruct (Qltb d 100) eqn:E1.
  { apply Qltb_true in E1. split; [discriminate|].
    intros [[H _] _]. exfalso. apply (Qlt_not_le _ _ E1 H). }
  apply Qltb_false in E1.
  destruct (Qltb (rr st * (80 # 100)) d) eqn:E2.
  { apply Qltb_true in E2. split; [discriminate|].
    intros [[_ [H _]] _]. exfalso. apply (Qlt_not_le _ _ E2 H). }
  apply Qltb_false in E2.
  destruct (Qltb 30 (d + e - t)) eqn:E3.
  { apply Qltb_true in E3. split; [discriminate|].
    intros [[_ [_ H]] _]. exfalso. apply (Qlt_not_le _ _ E3 H). }
  apply Qltb_false in E3.
  split.
  - intro H. inversion H. auto.
  - intros [_ ->]. reflexivity.
Qed.

Lemma candidate_stations_In (st : LoopState) (l : list Station.t)
    (c : Candidate.t) :
  In c (cands st (rr st) l) <->
  exists station, In station l /\ cand st (rr st) station = Some c.
Proof.
  induction l as [|s l IH]; simpl.
  - split; [contradiction | intros [x [[] _]]].
  - destruct (cand st (rr st) s) as [c'|] eqn:E; simpl; rewrite IH.
    + split.
      * intros [->|[x [Hx Hc]]]; [exists s; auto | exists x; auto].
      * intros [x [[->|Hx] Hc]]; [left; congruence | right; exists x; auto].
    + split.
      * intros [x [Hx Hc]]. exists x; auto.
      * intros [x [[->|Hx] Hc]]; [congruence | exists x; auto].
Qed.

(** What the selection guarantees: the selected entry is the entry of a
    catalogue station that passes the three filters, and no station that
    passes them has a greater score. *)
Lemma selects_spec (st : LoopState) (best : Candidate.t) :
  sel st best ->
  In (Candidate.station best) stations
  /\ passes st (Candidate.station best)
  /\ best = entry_of st (Candidate.station best)
  /\ forall station, In station stations -> passes st station ->
       score st station <= score st (Candidate.station best).
Proof.
  intros (_ & _ & c & cs & Hc & Hbest).
  assert (Hin : In best (cands st (rr st) stations)).
  { rewrite Hc, Hbest. apply py_max_key_In. }
  apply candidate_stations_In in Hin. destruct Hin as (s & Hs & Hcand).
  apply candidate_Some in Hcand. destruct Hcand as [Hp He].
  assert (Hst : Candidate.station best = s) by (rewrite He; reflexivity).
  rewrite Hst. repeat split; try assumption; try apply Hp.
  intros x Hx Hpx.
  assert (Hxin : In (entry_of st x) (cands st (rr st) stations)).
  { apply candidate_stations_In. exists x. split; [assumption|].
    apply candidate_Some. auto. }
  rewrite Hc in Hxin.
  pose proof (py_max_key_max Candidate.progress_score cs c _ Hxin) as Hmax.
  rewrite <- Hbest, He in Hmax. exact Hmax.
Qed.

(** A stop is only selected when the vehicle has a positive remaining
    range, so the division by [vehicle_range_km] cannot raise. *)
Lemma selects_range (st : LoopState) (best : Candidate.t) :
  sel st best ->
  125 <= rr st /\ ~ vehicle_range_km == 0
  /\ 100 <= Candidate.distance_from_current best.
Proof.
  intro H. destruct (selects_spec st best H) as (_ & (H1 & H2 & _) & He & _).
  assert (Hrr : 125 <= rr st) by lra.
  split; [assumption|]. split.
  - intro H0. unfold remaining_range_of in Hrr.
    assert (vehicle_range_km * (current_battery st - min_charge_percent) / 100 == 0)
      by (rewrite H0; field).
    lra.
  - rewrite He. exact H1.
Qed.

Lemma stop_info_Returned (st : LoopState) (seg : Z) (best : Candidate.t)
    (stop : Stop.t) :
  info st seg best = Returned stop <->
  ~ get (Station.power_kw (Candidate.station best)) 50 == 0
  /\ ~ vehicle_range_km == 0
  /\ stop = stop_of st seg best.
Proof.
  unfold stop_info, stop_of, py_div.
  destruct (Qeq_bool (get (Station.power_kw (Candidate.station best)) 50) 0) eqn:E1;
    simpl.
  { apply Qeq_bool_iff in E1. split; [discriminate | intros [H _]; contradiction]. }
  apply Qeq_bool_neq in E1.
  destruct (Qeq_bool vehicle_range_km 0) eqn:E2; simpl.
  { apply Qeq_bool_iff in E2. split; [discriminate | intros (_ & H & _); contradiction]. }
  apply Qeq_bool_neq in E2.
  split.
  - intro H. inversion H. auto.
  - intros (_ & _ & ->). reflexivity.
Qed.

Lemma stop_info_Raised (st : LoopState) (seg : Z) (best : Candidate.t) (e : exn) :
  info st seg best = Raised e ->
  e = ZeroDivisionError
  /\ (get (Station.power_kw (Candidate.station best)) 50 == 0
      \/ vehicle_range_km == 0).
Proof.
  unfold stop_info, py_div.
  destruct (Qeq_bool (get (Station.power_kw (Candidate.station best)) 50) 0) eqn:E1;
    simpl.
  { apply Qeq_bool_iff in E1. intro H. inversion H. auto. }
  destruct (Qeq_bool vehicle_range_km 0) eqn:E2; simpl.
  { apply Qeq_bool_iff in E2. intro H. inversion H. auto. }
  discriminate.
Qed.

(** Every way out of one pass through the body. *)
Lemma iteration_spec (st : LoopState) :
  match iter st with
  | Break CanReachDestination l =>
      l = stops st /\ to_end st <= rr st
  | Break TooManySegments l =>
      l = stops st /\ rr st < to_end st /\ (10 < segment_number st + 1)%Z
  | Break NoReachableStations l =>
      l = stops st /\ rr st < to_end st /\ (segment_number st + 1 <= 10)%Z
      /\ cands st (rr st) stations = []
  | Break MaxStopsReached l =>
      exists best, sel st best
        /\ info st (segment_number st + 1)%Z best
           = Returned (stop_of st (segment_number st + 1)%Z best)
        /\ l = stops (adv st best (stop_of st (segment_number st + 1)%Z best))
        /\ (10 <= length l)%nat
  | Continue st' =>
      exists best, sel st best
        /\ info st (segment_number st + 1)%Z best
           = Returned (stop_of st (segment_number st + 1)%Z best)
        /\ st' = adv st best (stop_of st (segment_number st + 1)%Z best)
        /\ (length (stops st') < 10)%nat
  | Raise e =>
      exists best, sel st best
        /\ info st (segment_number st + 1)%Z best = Raised e
  end.
Proof.
  unfold iteration.
  fold (rr st). fold (to_end st).
  destruct (Qle_bool (to_end st) (rr st)) eqn:E1.
  { apply Qle_bool_iff in E1. auto. }
  apply Qle_bool_false in E1.
  destruct (10 <? segment_number st + 1)%Z eqn:E2.
  { apply Z.ltb_lt in E2. auto. }
  apply Z.ltb_ge in E2.
  destruct (cands st (rr st) stations) as [|c cs] eqn:E3.
  { auto. }
  set (best := py_max_key Candidate.progress_score c cs).
  assert (Hsel : sel st best).
  { split; [assumption|]. split; [assumption|]. exists c, cs. auto. }
  destruct (info st (segment_number st + 1)%Z best) as [stop|e] eqn:E4.
  - pose proof (proj1 (stop_info_Returned _ _ _ _) E4) as (_ & _ & ->).
    destruct (10 <=? length (stops st ++ [stop_of st (segment_number st + 1)%Z best]))%nat eqn:E5.
    + apply Nat.leb_le in E5. exists best.
      split; [exact Hsel | split; [exact E4 | split; [reflexivity | exact E5]]].
    + apply Nat.leb_gt in E5. exists best.
      split; [exact Hsel | split; [exact E4 | split; [reflexivity | exact E5]]].
  - exists best. auto.
Qed.

(** ** Facts about the whole loop *)

Lemma advance_length (st : LoopState) (best : Candidate.t) (stop : Stop.t) :
  length (stops (adv st best stop)) = S (length (stops st)).
Proof. simpl. rewrite length_app. simpl. lia. Qed.

(** More fuel never changes an answer. *)
Lemma while_true_more_fuel (fuel k : nat) (st : LoopState)
    (r : result (LogEvent * list Stop.t)) :
  loop fuel st = Some r -> loop (fuel + k) st = Some r.
Proof.
  revert st. induction fuel as [|fuel IH]; intros st H; simpl in *.
  - discriminate.
  - destruct (iter st); auto.
Qed.

(** The loop answers as soon as the fuel covers the stops that can still
    be placed below the ceiling of ten. *)
Lemma while_true_fuel (fuel : nat) (st : LoopState) :
  (1 <= fuel)%nat -> (10 - length (stops st) <= fuel)%nat ->
  exists r, loop fuel st = Some r.
Proof.
  revert st. induction fuel as [|fuel IH]; intros st H1 H2.
  - lia.
  - simpl. pose proof (iteration_spec st) as Hspec.
    destruct (iter st) as [why l|st'|e].
    + eauto.
    + destruct Hspec as (best & _ & _ & -> & Hlen).
      rewrite advance_length in Hlen.
      apply IH; rewrite ?advance_length; lia.
    + eauto.
Qed.

(** Invariant rule: a property of the loop state that every placed stop
    preserves holds of the state whose stops are returned. *)
Lemma while_true_invariant (Inv : LoopState -> Prop) :
  (forall st best, Inv st -> sel st best ->
     info st (segment_number st + 1)%Z best
       = Returned (stop_of st (segment_number st + 1)%Z best) ->
     Inv (adv st best (stop_of st (segment_number st + 1)%Z best))) ->
  forall fuel st why l,
    Inv st -> loop fuel st = Some (Returned (why, l)) ->
    exists st', Inv st' /\ stops st' = l.
Proof.
  intros Hstep fuel. induction fuel as [|fuel IH]; intros st why l HI H; simpl in H.
  - discriminate.
  - pose proof (iteration_spec st) as Hspec.
    destruct (iter st) as [w l'|st'|e].
    + inversion H; subst w l'; clear H.
      destruct why.
      * destruct Hspec as [-> _]. eauto.
      * destruct Hspec as [-> _]. eauto.
      * destruct Hspec as [-> _]. eauto.
      * destruct Hspec as (best & Hsel & Hinfo & -> & _). eauto.
    + destruct Hspec as (best & Hsel & Hinfo & -> & _).
      eapply IH; [|exact H]. auto.
    + discriminate.
Qed.

(** The same rule for a property of each stop and of its position in the
    list. *)
Lemma while_true_indexed (Inv : LoopState -> Prop) (P : nat -> Stop.t -> Prop) :
  (forall st best, Inv st -> sel st best ->
     info st (segment_number st + 1)%Z best
       = Returned (stop_of st (segment_number st + 1)%Z best) ->
     Inv (adv st best (stop_of st (segment_number st + 1)%Z best))
     /\ P (length (stops st)) (stop_of st (segment_number st + 1)%Z best)) ->
  forall fuel st why l,
    Inv st -> (forall i s, nth_error (stops st) i = Some s -> P i s) ->
    loop fuel st = Some (Returned (why, l)) ->
    forall i s, nth_error l i = Some s -> P i s.
Proof.
  intros Hstep fuel st why l HI HP H.
  destruct (while_true_invariant
              (fun st => Inv st /\ forall i s, nth_error (stops st) i = Some s -> P i s))
    with (fuel := fuel) (st := st) (why := why) (l := l)
    as (st' & [_ HP'] & <-); auto.
  clear - Hstep. intros st best [HI HP] Hsel Hinfo.
  destruct (Hstep st best HI Hsel Hinfo) as [HI' Hnew].
  split; [assumption|]. intros i s. simpl.
  destruct (Nat.lt_ge_cases i (length (stops st))) as [Hi|Hi].
  - rewrite nth_error_app1 by assumption. apply HP.
  - rewrite nth_error_app2 by assumption.
    destruct (i - length (stops st))%nat as [|k] eqn:Ek; simpl.
    + intro Hs. inversion Hs; subst s.
      replace i with (length (stops st)) by lia. exact Hnew.
    + destruct k; discriminate.
Qed.

(** The list the loop returns holds at most ten stops. *)
Lemma while_true_length (fuel : nat) (st : LoopState) (why : LogEvent)
    (l : list Stop.t) :
  (length (stops st) <= 9)%nat ->
  loop fuel st = Some (Returned (why, l)) -> (length l <= 10)%nat.
Proof.
  revert st. induction fuel as [|fuel IH]; intros st Hlen H; simpl in H.
  - discriminate.
  - pose proof (iteration_spec st) as Hspec.
    destruct (iter st) as [w l'|st'|e].
    + inversion H; subst w l'; clear H.
      destruct why.
      * destruct Hspec as [-> _]. lia.
      * destruct Hspec as [-> _]. lia.
      * destruct Hspec as [-> _]. lia.
      * destruct Hspec as (best & _ & _ & -> & _).
        rewrite advance_length. lia.
    + destruct Hspec as (best & _ & _ & _ & Hlt).
      apply (IH st'); [lia | exact H].
    + discriminate.
Qed.

(** The only exception the loop raises is the division by a station power
    of zero. *)
Lemma while_true_Raised (fuel : nat) (st : LoopState) (e : exn) :
  loop fuel st = Some (Raised e) ->
  e = ZeroDivisionError
  /\ exists station, In station stations
       /\ get (Station.power_kw station) 50 == 0.
Proof.
  revert st. induction fuel as [|fuel IH]; intros st H; simpl in H.
  - discriminate.
  - pose proof (iteration_spec st) as Hspec.
    destruct (iter st) as [w l'|st'|e'].
    + discriminate.
    + eauto.
    + inversion H; subst e'; clear H.
      destruct Hspec as (best & Hsel & Hinfo).
      apply stop_info_Raised in Hinfo. destruct Hinfo as [-> [Hp|Hr]].
      * split; [reflexivity|]. exists (Candidate.station best).
        split; [apply (selects_spec st best Hsel) | exact Hp].
      * exfalso. destruct (selects_range st best Hsel) as (_ & Hne & _).
        apply Hne. exact Hr.
Qed.

(** The state in which the loop breaks: it satisfies every property that
    the passes which go on preserve. *)
Lemma while_true_last (Inv : LoopState -> Prop) :
  (forall st st', Inv st -> iter st = Continue st' -> Inv st') ->
  forall fuel st why l,
    Inv st -> loop fuel st = Some (Returned (why, l)) ->
    exists st', Inv st' /\ iter st' = Break why l.
Proof.
  intros Hstep fuel. induction fuel as [|fuel IH]; intros st why l HI H; simpl in H.
  - discriminate.
  - destruct (iter st) as [w l'|st'|e] eqn:E.
    + inversion H; subst w l'. eauto.
    + eapply IH; [|exact H]. eauto.
    + discriminate.
Qed.

(** From the start of a call the segment counter counts the stops placed,
    so the guard [segment_number > 10] never fires. *)
Lemma reachable_segment (st0 st : LoopState) :
  reach st0 st ->
  segment_number st0 = Z.of_nat (length (stops st0)) ->
  (length (stops st0) < 10)%nat ->
  segment_number st = Z.of_nat (length (stops st))
  /\ (length (stops st) < 10)%nat.
Proof.
  intros H H0 H1. induction H as [|st st' Hr IH Hstep].
  - auto.
  - destruct IH as [IHseg IHlen].
    pose proof (iteration_spec st) as Hspec. rewrite Hstep in Hspec.
    destruct Hspec as (best & _ & _ & -> & Hlt).
    split; [|exact Hlt].
    rewrite advance_length. simpl. lia.
Qed.

(** Every returned stop was built by [stop_info] for the station selected
    in some pass, when as many stops were placed as its position says. *)
Lemma while_true_provenance (fuel : nat) (st0 : LoopState) (why : LogEvent)
    (l : list Stop.t) :
  stops st0 = [] ->
  loop fuel st0 = Some (Returned (why, l)) ->
  forall i s, nth_error l i = Some s ->
    exists st best,
      sel st best /\ length (stops st) = i
      /\ s = stop_of st (segment_number st + 1)%Z best.
Proof.
  intros H0 H.
  apply (while_true_indexed (fun _ => True)
           (fun i s => exists st best, sel st best /\ length (stops st) = i
              /\ s = stop_of st (segment_number st + 1)%Z best))
    with (fuel := fuel) (st := st0) (why := why); auto.
  - intros st best _ Hsel _. split; [exact I|]. exists st, best. auto.
  - rewrite H0. intros [|i] s; discriminate.
Qed.

(** With a positive remaining range of at least 125 km and a station no
    farther than 80% of it, the vehicle arrives with at least a fifth of
    the usable charge left. *)
Lemma arrival_bound (range b m km : Q) :
  125 <= range * (b - m) / 100 ->
  (m <= b \/ 0 < range) ->
  100 <= km ->
  km <= range * (b - m) / 100 * (80 # 100) ->
  0 < range /\ m < b /\ m + (b - m) * (20 # 100) <= b - km / range * 100.
Proof.
  intros Hrr Hor Hkm Hmax.
  assert (Hprod : 12500 <= range * (b - m)).
  { assert (E : range * (b - m) == range * (b - m) / 100 * 100) by field. lra. }
  assert (Hpos : 0 < range /\ m < b).
  { destruct Hor as [H|H].
    - assert (0 < range) by nra. split; [assumption|]. nra.
    - split; [assumption|]. nra. }
  destruct Hpos as [Hr Hb]. split; [assumption|]. split; [assumption|].
  assert (Hne : ~ range == 0) by lra.
  set (x := km / range).
  assert (Hx : x * range == km) by (unfold x; field; assumption).
  assert (Hx2 : x * range <= range * (b - m) * (80 # 10000)).
  { rewrite Hx.
    assert (E : range * (b - m) / 100 * (80 # 100)
                == range * (b - m) * (80 # 10000)) by field.
    lra. }
  assert (Hx3 : x <= (b - m) * (80 # 10000)) by nra.
  lra.
Qed.

End LoopFacts.

(** ** The planner *)

Section PlannerFacts.

Variables start_lat start_lon end_lat end_lon : Q.
Variable stations : list Station.t.
Variables vehicle_range_km battery_capacity_kwh : Q.
Variables current_battery_percent min_charge_percent preferred_charge_percent : Q.

Local Abbreviation init :=
  (mkLoopState [] start_lat start_lon current_battery_percent 0).
Local Abbreviation loop :=
  (while_true haversine_distance end_lat end_lon stations vehicle_range_km
     battery_capacity_kwh min_charge_percent preferred_charge_percent).
Local Abbreviation plan :=
  (_find_optimal_stops haversine_distance start_lat start_lon end_lat end_lon
     stations vehicle_range_km battery_capacity_kwh current_battery_percent
     min_charge_percent preferred_charge_percent).
Local Abbreviation sel :=
  (selects haversine_distance end_lat end_lon stations vehicle_range_km
     min_charge_percent).
Local Abbreviation stop_of :=
  (stop_of vehicle_range_km battery_capacity_kwh min_charge_percent
     preferred_charge_percent).
Local Abbreviation adv := (advance preferred_charge_percent).
Local Abbreviation leg :=
  (leg_battery current_battery_percent preferred_charge_percent).

Lemma find_optimal_stops_Returned (l : list Stop.t) :
  plan = Some (Returned l) <->
  exists why, loop 10%nat init = Some (Returned (why, l)).
Proof.
  unfold _find_optimal_stops.
  destruct (loop 10%nat init) as [[[why l']|e]|]; split.
  - intro H. inversion H. eauto.
  - intros [w H]. inversion H. reflexivity.
  - discriminate.
  - intros [w H]. discriminate.
  - discriminate.
  - intros [w H]. discriminate.
Qed.

Lemma find_optimal_stops_Raised (e : exn) :
  plan = Some (Raised e) <-> loop 10%nat init = Some (Raised e).
Proof.
  unfold _find_optimal_stops.
  destruct (loop 10%nat init) as [[[why l']|e']|]; split; intro H;
    try discriminate; inversion H; reflexivity.
Qed.

(** The battery level at the start of each leg, an invariant of the loop. *)
Lemma leg_battery_advance (st : LoopState) (best : Candidate.t) (stop : Stop.t) :
  current_battery (adv st best stop) = leg (length (stops (adv st best stop))).
Proof. rewrite advance_length. reflexivity. Qed.

(** The stops of a plan, by position: the charge is computed from the
    battery level at the start of the leg. *)
Lemma plan_kwh (l : list Stop.t) :
  plan = Some (Returned l) ->
  forall i stop, nth_error l i = Some stop ->
    Stop.kwh_charged stop
      = battery_capacity_kwh * (preferred_charge_percent - leg i) / 100
    /\ Stop.estimated_cost stop
       = Stop.kwh_charged stop * Stop.price_per_kwh stop
    /\ Stop.charging_time_minutes stop
       = Stop.kwh_charged stop / Stop.charging_power_kw stop * 60
    /\ Stop.battery_after_charge stop = preferred_charge_percent
    /\ Stop.segment stop = (Z.of_nat i + 1)%Z
    /\ exists station, In station stations
         /\ Stop.charging_power_kw stop = get (Station.power_kw station) 50
         /\ Stop.price_per_kwh stop = get (Station.price_per_kwh station) (35 # 100)
         /\ Stop.connector_type stop
            = get (Station.connector_type station) "CCS"%string
         /\ ~ Stop.charging_power_kw stop == 0.
Proof.
  intro H. apply find_optimal_stops_Returned in H. destruct H as [why H].
  eapply while_true_indexed
    with (Inv := fun st => current_battery st = leg (length (stops st))
                           /\ segment_number st = Z.of_nat (length (stops st)));
    [ | | | exact H].
  - intros st best [Hb Hs] Hsel Hinfo. split.
    + split; [apply leg_battery_advance|].
      rewrite advance_length. simpl. lia.
    + apply stop_info_Returned in Hinfo. destruct Hinfo as (Hp & _ & _).
      edestruct selects_spec as (Hin & _); [exact Hsel|].
      simpl. rewrite Hb, Hs.
      repeat (split; [reflexivity|]).
      exists (Candidate.station best).
      split; [exact Hin|].
      repeat (split; [reflexivity|]). exact Hp.
  - simpl. auto.
  - simpl. intros [|i] s'; discriminate.
Qed.

(** ** The claims about [_find_optimal_stops] *)


(** C5.  When the trip starts with [current_battery_percent] at or above
    [min_charge_percent], every stop that [_find_optimal_stops] returns has
    [battery_on_arrival >= min_charge_percent]; the clamp
    [max(battery_on_arrival, min_charge_percent)] is then the identity, and
    the vehicle arrives with at least a fifth of the leg's usable charge. *)
Theorem battery_on_arrival_at_least_minimum (l : list Stop.t) :
  min_charge_percent <= current_battery_percent ->
  _find_optimal_stops haversine_distance start_lat start_lon end_lat end_lon
    stations vehicle_range_km battery_capacity_kwh current_battery_percent
    min_charge_percent preferred_charge_percent
  = Some (Returned l) ->
  forall i stop, nth_error l i = Some stop ->
    min_charge_percent <= Stop.battery_on_arrival stop
    /\ Stop.battery_on_arrival stop
       = leg_battery current_battery_percent preferred_charge_percent i
         - Stop.distance_traveled stop / vehicle_range_km * 100
    /\ min_charge_percent
       + (leg_battery current_battery_percent preferred_charge_percent i
          - min_charge_percent) * (20 # 100)
       <= Stop.battery_on_arrival stop.
Proof.
  intros Hmin H. apply find_optimal_stops_Returned in H. destruct H as [why H].
  eapply while_true_indexed
    with (Inv := fun st => current_battery st = leg (length (stops st))
                           /\ (min_charge_percent <= current_battery st
                               \/ 0 < vehicle_range_km));
    [ | | | exact H].
  - intros st best [Hb Hor] Hsel _.
    edestruct selects_spec as (_ & (Hp1 & Hp2 & _) & He & _); [exact Hsel|].
    edestruct selects_range as (Hrr & _ & _); [exact Hsel|].
    assert (Hkm : Candidate.distance_from_current best
                  = dist_from_current_of haversine_distance st
                      (Candidate.station best)) by (rewrite He at 1; reflexivity).
    rewrite <- Hkm in Hp1, Hp2.
    destruct (arrival_bound vehicle_range_km (current_battery st)
                min_charge_percent (Candidate.distance_from_current best)
                Hrr Hor Hp1 Hp2) as (Hr & Hlt & Hbound).
    split.
    + split; [apply leg_battery_advance | right; exact Hr].
    + simpl. rewrite <- Hb.
      assert (Hge : min_charge_percent
                    <= current_battery st
                       - Candidate.distance_from_current best / vehicle_range_km * 100)
        by lra.
      rewrite (py_max_l _ _ Hge).
      split; [exact Hge|]. split; [reflexivity | exact Hbound].
  - simpl. auto.
  - simpl. intros [|i] s'; discriminate.
Qed.

(** C6.  Across the list that [_find_optimal_stops] returns,
    [distance_from_start] is strictly increasing: a later stop is strictly
    farther along than every earlier one (by at least 100 km from its
    predecessor), so no two stops share a position along the route. *)
Theorem distance_from_start_strictly_increasing (l : list Stop.t) :
  _find_optimal_stops haversine_distance start_lat start_lon end_lat end_lon
    stations vehicle_range_km battery_capacity_kwh current_battery_percent
    min_charge_percent preferred_charge_percent
  = Some (Returned l) ->
  forall i j a b, (i < j)%nat ->
    nth_error l i = Some a -> nth_error l j = Some b ->
    Stop.distance_from_start a + 100 <= Stop.distance_from_start b
    /\ Stop.distance_from_start a < Stop.distance_from_start b.
Proof.
  intro H. apply find_optimal_stops_Returned in H. destruct H as [why H].
  destruct (while_true_invariant end_lat end_lon stations
              vehicle_range_km battery_capacity_kwh min_charge_percent
              preferred_charge_percent
              (fun st =>
                 (forall i j a b, (i < j)%nat ->
                    nth_error (stops st) i = Some a ->
                    nth_error (stops st) j = Some b ->
                    Stop.distance_from_start a + 100 <= Stop.distance_from_start b)
                 /\ (forall a, In a (stops st) ->
                       Stop.distance_from_start a
                       <= py_sum (map Stop.distance_traveled (stops st)))))
    with (fuel := 10%nat) (st := init) (why := why) (l := l)
    as (st' & [Hsorted _] & <-).
  - intros st best [Hs Hb] Hsel _.
    edestruct selects_range as (_ & _ & Hkm); [exact Hsel|].
    set (km := Candidate.distance_from_current best) in *.
    set (stop := stop_of st (segment_number st + 1)%Z best).
    assert (Hdfs : Stop.distance_from_start stop
                   = py_sum (map Stop.distance_traveled (stops st)) + km)
      by reflexivity.
    assert (Hsum : py_sum (map Stop.distance_traveled (stops st ++ [stop]))
                   = py_sum (map Stop.distance_traveled (stops st)) + km).
    { rewrite map_app. simpl. apply py_sum_app. }
    simpl. split.
    + intros i j a b Hij Ha Hb'.
      destruct (Nat.lt_ge_cases j (length (stops st))) as [Hj|Hj].
      * rewrite nth_error_app1 in Ha by lia.
        rewrite nth_error_app1 in Hb' by lia. eauto.
      * rewrite nth_error_app2 in Hb' by lia.
        destruct (j - length (stops st))%nat as [|k] eqn:Ek;
          [|destruct k; discriminate].
        simpl in Hb'. inversion Hb'; subst b.
        rewrite nth_error_app1 in Ha by lia.
        apply nth_error_In in Ha. apply Hb in Ha.
        rewrite Hdfs. lra.
    + intros a Ha. rewrite Hsum. apply in_app_or in Ha.
      destruct Ha as [Ha|[<-|[]]].
      * apply Hb in Ha. lra.
      * rewrite Hdfs. lra.
  - simpl. split.
    + intros [|i] j a b _ Ha; discriminate.
    + intros a [].
  - exact H.
  - intros i j a b Hij Ha Hb.
    pose proof (Hsorted i j a b Hij Ha Hb). split; [assumption | lra].
Qed.

(** C10.  For every stop that [_find_optimal_stops] returns, [kwh_charged]
    and [estimated_cost] are computed from the battery level at the start of
    the leg, not from the level on arrival:
    [kwh_charged = battery_capacity_kwh * (preferred_charge_percent - b) / 100]
    where [b] is the trip's starting level for the first stop and
    [preferred_charge_percent] for every later one, and
    [estimated_cost = kwh_charged * price_per_kwh].  The distance driven to
    the station does not occur in the amount. *)
Theorem charge_computed_from_leg_start_battery (l : list Stop.t) :
  _find_optimal_stops haversine_distance start_lat start_lon end_lat end_lon
    stations vehicle_range_km battery_capacity_kwh current_battery_percent
    min_charge_percent preferred_charge_percent
  = Some (Returned l) ->
  forall i stop, nth_error l i = Some stop ->
    Stop.kwh_charged stop
      = battery_capacity_kwh
        * (preferred_charge_percent
           - leg_battery current_battery_percent preferred_charge_percent i)
        / 100
    /\ Stop.estimated_cost stop
       = Stop.kwh_charged stop * Stop.price_per_kwh stop.
Proof.
  intros H i stop Hi.
  destruct (plan_kwh l H i stop Hi) as (Hk & Hc & _). auto.
Qed.


(** ** The response *)

Lemma create_route_response_fields (total_distance : Q)
    (charging_stops : list Stop.t) (message : option string)
    (tomtom_data : option TomTom.t) :
  let r :=
    _create_route_response start_lat start_lon end_lat end_lon total_distance
      vehicle_range_km charging_stops message tomtom_data in
  Response.success r = true
  /\ Response.message r
     = message_or message "Route calculated successfully with real-time traffic"
  /\ Response.charging_stops r = charging_stops
  /\ RouteSummary.num_charging_stops (Response.route_summary r)
     = length charging_stops.
Proof.
  unfold _create_route_response. destruct tomtom_data; simpl; auto.
Qed.

Local Abbreviation respond :=
  (calculate_charging_stops haversine_distance get_tomtom_route stations
     start_lat start_lon end_lat end_lon vehicle_range_km battery_capacity_kwh
     current_battery_percent min_charge_percent preferred_charge_percent).

(** Whatever the planner found, a response that is returned says
    [success = True]. *)
Lemma calculate_charging_stops_success (r : Response.t) :
  respond = Some (Returned r) -> Response.success r = true.
Proof.
  unfold calculate_charging_stops.
  destruct stations as [|s0 rest].
  - intro H. inversion H. apply create_route_response_fields.
  - destruct (Qle_bool _ _).
    + intro H. inversion H. apply create_route_response_fields.
    + destruct (_find_optimal_stops _ _ _ _ _ _ _ _ _ _ _) as [[l|e]|];
        intro H; inversion H. apply create_route_response_fields.
Qed.

(** C1, as amended.  Whenever a planning call requires charging and, at
    some pass of the planner loop, no station passes the candidate filters,
    the loop stops and the response returns the stops already placed; its
    [success] flag is [True] and its message is the generic
    "Route calculated successfully with real-time traffic".  The response
    carries no sign of the infeasibility. *)
Theorem no_candidate_response_reports_success (l : list Stop.t) :
  stations <> [] ->
  vehicle_range_km * (current_battery_percent - min_charge_percent) / 100
    < haversine_distance start_lat start_lon end_lat end_lon ->
  while_true haversine_distance end_lat end_lon stations vehicle_range_km
    battery_capacity_kwh min_charge_percent preferred_charge_percent 10%nat
    (mkLoopState [] start_lat start_lon current_battery_percent 0)
  = Some (Returned (NoReachableStations, l)) ->
  exists r,
    calculate_charging_stops haversine_distance get_tomtom_route stations
      start_lat start_lon end_lat end_lon vehicle_range_km
      battery_capacity_kwh current_battery_percent min_charge_percent
      preferred_charge_percent
    = Some (Returned r)
    /\ Response.success r = true
    /\ Response.message r
       = "Route calculated successfully with real-time traffic"%string
    /\ Response.charging_stops r = l
    /\ RouteSummary.num_charging_stops (Response.route_summary r) = length l.
Proof.
  intros Hne Hfar Hloop.
  assert (Hplan : plan = Some (Returned l))
    by (apply find_optimal_stops_Returned; eauto).
  apply Qle_bool_false in Hfar.
  unfold calculate_charging_stops.
  destruct stations as [|s0 rest]; [contradiction|].
  rewrite Hfar, Hplan.
  eexists. split; [reflexivity|]. apply create_route_response_fields.
Qed.

(** C3.  If the great-circle distance from start to destination is at most
    the usable range
    [vehicle_range_km * (current_battery_percent - min_charge_percent) / 100],
    [calculate_charging_stops] returns a plan whose list of charging stops
    is empty and whose [success] flag is [True]. *)
Theorem trip_within_usable_range_needs_no_stops :
  haversine_distance start_lat start_lon end_lat end_lon
    <= vehicle_range_km * (current_battery_percent - min_charge_percent) / 100 ->
  exists r,
    calculate_charging_stops haversine_distance get_tomtom_route stations
      start_lat start_lon end_lat end_lon vehicle_range_km
      battery_capacity_kwh current_battery_percent min_charge_percent
      preferred_charge_percent
    = Some (Returned r)
    /\ Response.charging_stops r = []
    /\ Response.success r = true.
Proof.
  intro Hnear. apply Qle_bool_iff in Hnear.
  unfold calculate_charging_stops.
  destruct stations as [|s0 rest].
  - eexists. split; [reflexivity|].
    split; apply create_route_response_fields.
  - rewrite Hnear. eexists. split; [reflexivity|].
    split; apply create_route_response_fields.
Qed.

(** ** More about the planner loop *)

Local Abbreviation on_route :=
  (on_route haversine_distance start_lat start_lon end_lat end_lon
     current_battery_percent preferred_charge_percent).

Lemma on_route_init : on_route init.
Proof. repeat split. simpl. lia. Qed.

Lemma on_route_step (st st' : LoopState) :
  on_route st ->
  iteration haversine_distance end_lat end_lon stations vehicle_range_km
    battery_capacity_kwh min_charge_percent preferred_charge_percent st
  = Continue st' ->
  on_route st'.
Proof.
  intros (Hd & Hb & Hs & Hl) Hstep.
  pose proof (iteration_spec end_lat end_lon stations vehicle_range_km
                battery_capacity_kwh min_charge_percent preferred_charge_percent
                st) as Hspec.
  rewrite Hstep in Hspec. destruct Hspec as (best & Hsel & _ & -> & Hlt).
  edestruct selects_spec as (_ & _ & He & _); [exact Hsel|].
  split; [|split; [|split]].
  - unfold final_leg_distance. simpl stops. rewrite rev_app_distr. simpl.
    rewrite He at 3. reflexivity.
  - apply leg_battery_advance.
  - rewrite advance_length. simpl. lia.
  - exact Hlt.
Qed.

(** X1.  In a call of [_find_optimal_stops] the guard
    [segment_number > 10] never fires: the loop never ends through the
    "Too many segments" exit, because the tenth stop ends it first. *)
Theorem segment_guard_never_fires (fuel : nat) (why : LogEvent)
    (l : list Stop.t) :
  while_true haversine_distance end_lat end_lon stations vehicle_range_km
    battery_capacity_kwh min_charge_percent preferred_charge_percent fuel
    (mkLoopState [] start_lat start_lon current_battery_percent 0)
  = Some (Returned (why, l)) ->
  why <> TooManySegments.
Proof.
  intros H ->.
  destruct (while_true_last end_lat end_lon stations vehicle_range_km
              battery_capacity_kwh min_charge_percent preferred_charge_percent
              on_route on_route_step fuel init TooManySegments l
              on_route_init H) as (st' & (_ & _ & Hs & Hl) & Hbreak).
  pose proof (iteration_spec end_lat end_lon stations vehicle_range_km
                battery_capacity_kwh min_charge_percent preferred_charge_percent
                st') as Hspec.
  rewrite Hbreak in Hspec. destruct Hspec as (_ & _ & Hgt). lia.
Qed.

(** X2.  The exit of the loop tells whether the plan reaches the
    destination.  After "Can reach destination" the distance left after the
    last stop (the whole trip when there is no stop) is within the usable
    range of the last leg; after "No reachable charging stations" it is
    beyond it, so the returned plan does not reach the destination; after
    "Max charging stops reached" the plan has exactly ten stops. *)
Theorem exit_tells_feasibility (fuel : nat) (why : LogEvent) (l : list Stop.t) :
  while_true haversine_distance end_lat end_lon stations vehicle_range_km
    battery_capacity_kwh min_charge_percent preferred_charge_percent fuel
    (mkLoopState [] start_lat start_lon current_battery_percent 0)
  = Some (Returned (why, l)) ->
  match why with
  | CanReachDestination =>
      final_leg_distance haversine_distance start_lat start_lon end_lat end_lon l
      <= vehicle_range_km
         * (leg_battery current_battery_percent preferred_charge_percent (length l)
            - min_charge_percent) / 100
  | NoReachableStations =>
      vehicle_range_km
      * (leg_battery current_battery_percent preferred_charge_percent (length l)
         - min_charge_percent) / 100
      < final_leg_distance haversine_distance start_lat start_lon end_lat end_lon l
  | MaxStopsReached => length l = 10%nat
  | TooManySegments => False
  end.
Proof.
  intro H.
  destruct (while_true_last end_lat end_lon stations vehicle_range_km
              battery_capacity_kwh min_charge_percent preferred_charge_percent
              on_route on_route_step fuel init why l
              on_route_init H) as (st' & (Hd & Hb & Hs & Hl) & Hbreak).
  pose proof (iteration_spec end_lat end_lon stations vehicle_range_km
                battery_capacity_kwh min_charge_percent preferred_charge_percent
                st') as Hspec.
  rewrite Hbreak in Hspec.
  unfold remaining_range_of in Hspec. rewrite Hd, Hb in Hspec.
  destruct why.
  - destruct Hspec as [-> Hle]. exact Hle.
  - destruct Hspec as (_ & _ & Hgt). lia.
  - destruct Hspec as (-> & Hlt & _). exact Hlt.
  - destruct Hspec as (best & _ & _ & -> & Hge).
    rewrite advance_length in *. lia.
Qed.

(** X3.  A vehicle whose usable range at the start is under 125 km gets no
    stop at all: no station can be both at least 100 km away and within 80%
    of the range, so [_find_optimal_stops] returns the empty list. *)
Theorem short_usable_range_gets_no_stop :
  vehicle_range_km * (current_battery_percent - min_charge_percent) / 100 < 125 ->
  _find_optimal_stops haversine_distance start_lat start_lon end_lat end_lon
    stations vehicle_range_km battery_capacity_kwh current_battery_percent
    min_charge_percent preferred_charge_percent
  = Some (Returned []).
Proof.
  intro Hshort. unfold _find_optimal_stops. simpl while_true.
  pose proof (iteration_spec end_lat end_lon stations vehicle_range_km
                battery_capacity_kwh min_charge_percent preferred_charge_percent
                init) as Hspec.
  assert (Hno : forall best, ~ sel init best).
  { intros best Hsel. edestruct selects_range as (Hrr & _); [exact Hsel|].
    unfold remaining_range_of in Hrr. simpl in Hrr. lra. }
  destruct (iteration haversine_distance end_lat end_lon stations
              vehicle_range_km battery_capacity_kwh min_charge_percent
              preferred_charge_percent init) as [why l|st'|e].
  - destruct why.
    + destruct Hspec as [-> _]. reflexivity.
    + destruct Hspec as [-> _]. reflexivity.
    + destruct Hspec as [-> _]. reflexivity.
    + destruct Hspec as (best & Hsel & _). destruct (Hno best Hsel).
  - destruct Hspec as (best & Hsel & _). destruct (Hno best Hsel).
  - destruct Hspec as (best & Hsel & _). destruct (Hno best Hsel).
Qed.

(** X4.  When the usable range after a charge,
    [vehicle_range_km * (preferred_charge_percent - min_charge_percent) / 100],
    is under 125 km, a plan has at most one stop: after the first charge no
    station passes the filters. *)
Theorem short_range_after_charge_gets_one_stop (l : list Stop.t) :
  vehicle_range_km * (preferred_charge_percent - min_charge_percent) / 100 < 125 ->
  _find_optimal_stops haversine_distance start_lat start_lon end_lat end_lon
    stations vehicle_range_km battery_capacity_kwh current_battery_percent
    min_charge_percent preferred_charge_percent
  = Some (Returned l) ->
  (length l <= 1)%nat.
Proof.
  intros Hshort H. apply find_optimal_stops_Returned in H. destruct H as [why H].
  assert (Hno : forall st best,
            stops st <> [] -> current_battery st = preferred_charge_percent ->
            ~ sel st best).
  { intros st best _ Hb Hsel. edestruct selects_range as (Hrr & _); [exact Hsel|].
    unfold remaining_range_of in Hrr. rewrite Hb in Hrr. lra. }
  destruct (while_true_last end_lat end_lon stations vehicle_range_km
              battery_capacity_kwh min_charge_percent preferred_charge_percent
              (fun st => stops st = []
                         \/ (length (stops st) = 1%nat
                             /\ current_battery st = preferred_charge_percent)))
    with (fuel := 10%nat) (st := init) (why := why) (l := l)
    as (st' & Hinv & Hbreak); [ | left; reflexivity | exact H | ].
  - intros st st' Hinv Hstep.
    pose proof (iteration_spec end_lat end_lon stations vehicle_range_km
                  battery_capacity_kwh min_charge_percent
                  preferred_charge_percent st) as Hspec.
    rewrite Hstep in Hspec. destruct Hspec as (best & Hsel & _ & -> & _).
    destruct Hinv as [Hnil|[Hlen Hb]].
    + right. split; [rewrite advance_length, Hnil; reflexivity | reflexivity].
    + exfalso. apply (Hno st best); auto.
      intro Hnil. rewrite Hnil in Hlen. discriminate.
  - pose proof (iteration_spec end_lat end_lon stations vehicle_range_km
                  battery_capacity_kwh min_charge_percent
                  preferred_charge_percent st') as Hspec.
    rewrite Hbreak in Hspec.
    assert (Hlen : (length (stops st') <= 1)%nat).
    { destruct Hinv as [->|[-> _]]; simpl; lia. }
    destruct why.
    + destruct Hspec as [-> _]. exact Hlen.
    + destruct Hspec as [-> _]. exact Hlen.
    + destruct Hspec as [-> _]. exact Hlen.
    + destruct Hspec as (best & _ & _ & -> & Hge).
      rewrite advance_length in Hge. lia.
Qed.

(** X5.  Every stop after the first charges nothing: the battery is taken
    to be at the charge target when the leg starts, so [kwh_charged],
    [charging_time_minutes] and [estimated_cost] are all 0. *)
Theorem later_stops_charge_nothing (l : list Stop.t) :
  _find_optimal_stops haversine_distance start_lat start_lon end_lat end_lon
    stations vehicle_range_km battery_capacity_kwh current_battery_percent
    min_charge_percent preferred_charge_percent
  = Some (Returned l) ->
  forall i stop, nth_error l (S i) = Some stop ->
    Stop.kwh_charged stop == 0
    /\ Stop.charging_time_minutes stop == 0
    /\ Stop.estimated_cost stop == 0.
Proof.
  intros H i stop Hi.
  destruct (plan_kwh l H (S i) stop Hi)
    as (Hk & Hc & Ht & _ & _ & station & _ & _ & _ & _ & Hp).
  simpl in Hk.
  assert (Hk0 : Stop.kwh_charged stop == 0) by (rewrite Hk; field).
  split; [exact Hk0|]. split.
  - rewrite Ht, Hk0. field. exact Hp.
  - rewrite Hc, Hk0. ring.
Qed.

(** X6.  Every stop of a plan names a station of the catalogue: its name,
    city and coordinates are the station's, its connector type, price and
    power are the station's or the defaults "CCS", 0.35 and 50, its
    distance to the destination is measured from the station, its segment
    number is its position in the list, and [battery_after_charge] is the
    charge target. *)
Theorem stops_are_catalogue_stations (l : list Stop.t) :
  _find_optimal_stops haversine_distance start_lat start_lon end_lat end_lon
    stations vehicle_range_km battery_capacity_kwh current_battery_percent
    min_charge_percent preferred_charge_percent
  = Some (Returned l) ->
  forall i stop, nth_error l i = Some stop ->
    Stop.segment stop = (Z.of_nat i + 1)%Z
    /\ Stop.battery_after_charge stop = preferred_charge_percent
    /\ exists station,
         In station stations
         /\ Stop.station_name stop = Station.name station
         /\ Stop.city stop = Station.city station
         /\ Stop.latitude stop = Station.latitude station
         /\ Stop.longitude stop = Station.longitude station
         /\ Stop.connector_type stop
            = get (Station.connector_type station) "CCS"%string
         /\ Stop.price_per_kwh stop
            = get (Station.price_per_kwh station) (35 # 100)
         /\ Stop.charging_power_kw stop = get (Station.power_kw station) 50
         /\ Stop.distance_to_destination stop
            = haversine_distance (Station.latitude station)
                (Station.longitude station) end_lat end_lon.
Proof.
  intro H. apply find_optimal_stops_Returned in H. destruct H as [why H].
  eapply while_true_indexed
    with (Inv := fun st => segment_number st = Z.of_nat (length (stops st)));
    [ | | | exact H].
  - intros st best Hs Hsel _. split.
    + rewrite advance_length. simpl. lia.
    + edestruct selects_spec as (Hin & _ & He & _); [exact Hsel|].
      simpl. rewrite Hs.
      repeat (split; [reflexivity|]).
      exists (Candidate.station best).
      split; [exact Hin|].
      repeat (split; [reflexivity|]).
      rewrite He at 1. reflexivity.
  - reflexivity.
  - simpl. intros [|i] s'; discriminate.
Qed.

(** X7.  Every leg of a plan is at least 100 km long and at most 80% of the
    usable range the leg starts with, and [distance_traveled] is the
    distance from the previous position to the station. *)
Theorem legs_between_100_km_and_80_percent (l : list Stop.t) :
  _find_optimal_stops haversine_distance start_lat start_lon end_lat end_lon
    stations vehicle_range_km battery_capacity_kwh current_battery_percent
    min_charge_percent preferred_charge_percent
  = Some (Returned l) ->
  forall i stop, nth_error l i = Some stop ->
    100 <= Stop.distance_traveled stop
    /\ Stop.distance_traveled stop
       <= vehicle_range_km
          * (leg_battery current_battery_percent preferred_charge_percent i
             - min_charge_percent) / 100 * (80 # 100).
Proof.
  intro H. apply find_optimal_stops_Returned in H. destruct H as [why H].
  eapply while_true_indexed
    with (Inv := fun st => current_battery st = leg (length (stops st)));
    [ | | | exact H].
  - intros st best Hb Hsel _. split; [apply leg_battery_advance|].
    edestruct selects_spec as (_ & (Hp1 & Hp2 & _) & He & _); [exact Hsel|].
    simpl. rewrite He at 1 2. simpl.
    unfold remaining_range_of in Hp2. rewrite Hb in Hp2. auto.
  - reflexivity.
  - simpl. intros [|i] s'; discriminate.
Qed.

(** X8.  The route through the stops of a plan and on to the destination is
    at most 30 km per stop longer than the direct distance: the legs driven
    plus the distance left after the last stop do not exceed the
    great-circle distance of the trip plus 30 km for each stop. *)
Theorem plan_detour_at_most_30_km_per_stop (l : list Stop.t) :
  _find_optimal_stops haversine_distance start_lat start_lon end_lat end_lon
    stations vehicle_range_km battery_capacity_kwh current_battery_percent
    min_charge_percent preferred_charge_percent
  = Some (Returned l) ->
  py_sum (map Stop.distance_traveled l)
  + final_leg_distance haversine_distance start_lat start_lon end_lat end_lon l
  <= haversine_distance start_lat start_lon end_lat end_lon
     + 30 * inject_Z (Z.of_nat (length l)).
Proof.
  intro H. apply find_optimal_stops_Returned in H. destruct H as [why H].
  destruct (while_true_invariant end_lat end_lon stations vehicle_range_km
              battery_capacity_kwh min_charge_percent preferred_charge_percent
              (fun st =>
                 distance_to_end_of haversine_distance end_lat end_lon st
                 = final_leg_distance haversine_distance start_lat start_lon
                     end_lat end_lon (stops st)
                 /\ py_sum (map Stop.distance_traveled (stops st))
                    + distance_to_end_of haversine_distance end_lat end_lon st
                    <= haversine_distance start_lat start_lon end_lat end_lon
                       + 30 * inject_Z (Z.of_nat (length (stops st)))))
    with (fuel := 10%nat) (st := init) (why := why) (l := l)
    as (st' & [Hd Hsum] & <-).
  - intros st best [Hd Hsum] Hsel _.
    edestruct selects_spec as (_ & (_ & _ & Hdet) & He & _); [exact Hsel|].
    assert (Hend : distance_to_end_of haversine_distance end_lat end_lon
                     (adv st best (stop_of st (segment_number st + 1)%Z best))
                   = Candidate.distance_to_destination best).
    { rewrite He at 3. reflexivity. }
    split.
    + rewrite Hend. unfold final_leg_distance. simpl stops.
      rewrite rev_app_distr. reflexivity.
    + rewrite Hend. simpl stops. rewrite map_app, length_app. simpl map.
      rewrite py_sum_app. simpl length.
      replace (Z.of_nat (length (stops st) + 1))
        with (Z.of_nat (length (stops st)) + 1)%Z by lia.
      rewrite inject_Z_plus. simpl Stop.distance_traveled.
      unfold detour_of in Hdet.
      assert (Hkm : Candidate.distance_from_current best
                    = dist_from_current_of haversine_distance st
                        (Candidate.station best))
        by (rewrite He at 1; reflexivity).
      assert (Hdd : Candidate.distance_to_destination best
                    = dist_to_destination_of haversine_distance end_lat end_lon
                        (Candidate.station best))
        by (rewrite He at 1; reflexivity).
      rewrite Hkm, Hdd.
      change (inject_Z 1) with 1. lra.
  - split; [reflexivity|].
    unfold distance_to_end_of, py_sum.
    cbn [stops map fold_left length current_lat current_lon Z.of_nat].
    change (inject_Z 0) with 0. lra.
  - exact H.
  - rewrite <- Hd. exact Hsum.
Qed.


(** ** More about the response *)

Lemma plan_outcome :
  exists r,
    plan = Some r
    /\ match r with
       | Returned l => (length l <= 10)%nat
       | Raised e =>
           e = ZeroDivisionError
           /\ exists station, In station stations
                /\ get (Station.power_kw station) 50 == 0
       end.
Proof.
  destruct (while_true_fuel end_lat end_lon stations vehicle_range_km
              battery_capacity_kwh min_charge_percent preferred_charge_percent
              10 init) as [r Hr]; [lia | simpl; lia |].
  destruct r as [[why l]|e].
  - exists (Returned l). split.
    + apply find_optimal_stops_Returned. eauto.
    + eapply while_true_length; [|exact Hr]. simpl. lia.
  - exists (Raised e). split.
    + apply find_optimal_stops_Raised. exact Hr.
    + eapply while_true_Raised. exact Hr.
Qed.

Lemma create_route_response_waypoints (total_distance : Q)
    (charging_stops : list Stop.t) (message : option string)
    (tomtom_data : option TomTom.t) :
  let r :=
    _create_route_response start_lat start_lon end_lat end_lon total_distance
      vehicle_range_km charging_stops message tomtom_data in
  length (Response.waypoints r) = (length charging_stops + 2)%nat
  /\ map Waypoint.type (Response.waypoints r)
     = Waypoint.start
       :: map (fun _ => Waypoint.charging) charging_stops ++ [Waypoint.end_]
  /\ map (fun w => (Waypoint.latitude w, Waypoint.longitude w))
       (Response.waypoints r)
     = (start_lat, start_lon)
       :: map (fun stop => (Stop.latitude stop, Stop.longitude stop))
            charging_stops
          ++ [(end_lat, end_lon)].
Proof.
  unfold _create_route_response. destruct tomtom_data; simpl.
  - rewrite length_app, length_map, !map_app, !map_map. simpl.
    repeat split; lia.
  - rewrite length_app, length_map, !map_app, !map_map. simpl.
    repeat split; lia.
Qed.

(** X10.  [calculate_charging_stops] answers every call.  Either it returns
    a response, which then says [success = True], lists at most ten charging
    stops, counts them in [num_charging_stops], and has one waypoint for the
    start, one for each stop in order and one for the destination; or it
    raises [ZeroDivisionError], which happens only when a station of the
    catalogue has power 0. *)
Theorem calculate_charging_stops_outcome :
  exists outcome,
    calculate_charging_stops haversine_distance get_tomtom_route stations
      start_lat start_lon end_lat end_lon vehicle_range_km
      battery_capacity_kwh current_battery_percent min_charge_percent
      preferred_charge_percent
    = Some outcome
    /\ match outcome with
       | Returned r =>
           Response.success r = true
           /\ (length (Response.charging_stops r) <= 10)%nat
           /\ RouteSummary.num_charging_stops (Response.route_summary r)
              = length (Response.charging_stops r)
           /\ map (fun w => (Waypoint.latitude w, Waypoint.longitude w))
                (Response.waypoints r)
              = (start_lat, start_lon)
                :: map (fun stop => (Stop.latitude stop, Stop.longitude stop))
                     (Response.charging_stops r)
                   ++ [(end_lat, end_lon)]
       | Raised e =>
           e = ZeroDivisionError
           /\ exists station, In station stations
                /\ get (Station.power_kw station) 50 == 0
       end.
Proof.
  assert (Hresp : forall total l message tomtom_data,
            (length l <= 10)%nat ->
            let r := _create_route_response start_lat start_lon end_lat end_lon
                       total vehicle_range_km l message tomtom_data in
            Response.success r = true
            /\ (length (Response.charging_stops r) <= 10)%nat
            /\ RouteSummary.num_charging_stops (Response.route_summary r)
               = length (Response.charging_stops r)
            /\ map (fun w => (Waypoint.latitude w, Waypoint.longitude w))
                 (Response.waypoints r)
               = (start_lat, start_lon)
                 :: map (fun stop => (Stop.latitude stop, Stop.longitude stop))
                      (Response.charging_stops r)
                    ++ [(end_lat, end_lon)]).
  { intros total l message tomtom_data Hl r.
    destruct (create_route_response_fields total l message tomtom_data)
      as (Hs & _ & Hc & Hn).
    destruct (create_route_response_waypoints total l message tomtom_data)
      as (_ & _ & Hw).
    fold r in Hs, Hc, Hn, Hw. rewrite Hc. auto. }
  unfold calculate_charging_stops.
  destruct stations as [|s0 rest] eqn:Est.
  - eexists. split; [reflexivity|]. apply Hresp. simpl. lia.
  - destruct (Qle_bool _ _).
    + eexists. split; [reflexivity|]. apply Hresp. simpl. lia.
    + rewrite <- Est. destruct plan_outcome as ([l|e] & Hp & Hl); rewrite Hp.
      * eexists. split; [reflexivity|]. apply Hresp. exact Hl.
      * eexists. split; [reflexivity|]. exact Hl.
Qed.

(** X11.  Where the drawn route comes from.  When the routing provider does
    not answer, [route_coordinates] is just the start and the destination,
    whatever stops were planned; the path through the charging stops is
    built only when the provider answers with an empty polyline; otherwise
    the provider's polyline is returned and [with_traffic] is true. *)
Theorem route_coordinates_source (total_distance : Q)
    (charging_stops : list Stop.t) (message : option string)
    (tomtom_data : option TomTom.t) :
  let r :=
    _create_route_response start_lat start_lon end_lat end_lon total_distance
      vehicle_range_km charging_stops message tomtom_data in
  match tomtom_data with
  | None =>
      Response.route_coordinates r = [(start_lat, start_lon); (end_lat, end_lon)]
      /\ RouteSummary.with_traffic (Response.route_summary r) = false
      /\ RouteSummary.traffic_delay_minutes (Response.route_summary r) == 0
  | Some data =>
      RouteSummary.with_traffic (Response.route_summary r) = true
      /\ match TomTom.coordinates data with
         | [] =>
             Response.route_coordinates r
             = (start_lat, start_lon)
               :: map (fun stop => (Stop.latitude stop, Stop.longitude stop))
                    charging_stops
                  ++ [(end_lat, end_lon)]
         | polyline => Response.route_coordinates r = polyline
         end
  end.
Proof.
  unfold _create_route_response. destruct tomtom_data as [data|]; simpl.
  - split; [reflexivity|]. destruct (TomTom.coordinates data); reflexivity.
  - repeat split.
Qed.

End PlannerFacts.

End RoutePlanningFacts.

(** ** Facts about the charging service *)

Module ChargingServiceFacts.

Import ChargingService.

Lemma py_in_In (x : string) (l : list string) : py_in x l = true <-> In x l.
Proof.
  unfold py_in. rewrite existsb_exists. split.
  - intros (y & Hy & Heq). apply String.eqb_eq in Heq. subst. assumption.
  - intro H. exists x. split; [assumption | apply String.eqb_refl].
Qed.

Lemma compatible_spec (vehicle_specs : VehicleSpecs.t) (station : Station.t) :
  compatible vehicle_specs station = true <->
  exists connector,
    In connector (get (Station.connector_types station) [])
    /\ In connector (get (VehicleSpecs.supported_connectors vehicle_specs) []).
Proof.
  unfold compatible. rewrite existsb_exists.
  split; intros (c & Hc & H); exists c; split; auto; apply py_in_In; assumption.
Qed.

Lemma filter_compatible_In (stations : list Station.t)
    (vehicle_specs : VehicleSpecs.t) (station : Station.t) :
  In station (_filter_compatible_stations stations vehicle_specs) <->
  In station stations /\ compatible vehicle_specs station = true.
Proof.
  induction stations as [|s l IH]; simpl.
  - tauto.
  - destruct (compatible vehicle_specs s) eqn:E; simpl; rewrite IH.
    + split.
      * intros [->|[H1 H2]]; auto.
      * intros [[->|H1] H2]; auto.
    + split.
      * intros [H1 H2]; auto.
      * intros [[->|H1] H2]; [congruence | auto].
Qed.

Lemma insert_by_score_In (x y : Station.t * Q) (l : list (Station.t * Q)) :
  In y (insert_by_score x l) <-> y = x \/ In y l.
Proof.
  induction l as [|z l IH]; simpl.
  - split; intros [H|H]; auto.
  - destruct (Qltb (snd x) (snd z)); simpl; [rewrite IH|];
      split; intros; intuition auto.
Qed.

Lemma sort_by_score_In (y : Station.t * Q) (l : list (Station.t * Q)) :
  In y (sort_by_score l) <-> In y l.
Proof.
  unfold sort_by_score. induction l as [|x l IH]; simpl.
  - tauto.
  - rewrite insert_by_score_In, IH. split; intros [H|H]; auto.
Qed.

Lemma score_all_In (stations : list Station.t) (vehicle_specs : VehicleSpecs.t)
    (preferences : option Preferences.t) (scored : list (Station.t * Q)) :
  score_all stations vehicle_specs preferences = Returned scored ->
  forall y, In y scored -> In (fst y) stations.
Proof.
  revert scored. induction stations as [|s l IH]; simpl; intros scored H y Hy.
  - inversion H; subst. contradiction.
  - destruct (_calculate_station_score s vehicle_specs preferences) as [q|e];
      simpl in H; [|discriminate].
    destruct (score_all l vehicle_specs preferences) as [rest|e];
      simpl in H; [|discriminate].
    inversion H; subst. destruct Hy as [<-|Hy]; simpl; eauto.
Qed.

(** The code's running total and the sum of the specification agree. *)
Lemma preference_bonus_spec (station : Station.t)
    (preferences : option Preferences.t) (score : Q) :
  preference_bonus station (get (Station.power_kw station) 50) preferences score
  == score + spec_bonus station preferences.
Proof.
  unfold preference_bonus, spec_bonus.
  destruct preferences as [p|]; [|lra].
  destruct (dict_truthy p); [|lra].
  generalize (inject_Z (Z.of_nat (length
                (filter (fun amenity => py_in amenity (get (Station.amenities station) []))
                   (get (Preferences.preferred_amenities p) []))))).
  intro m.
  destruct (get (Preferences.prefer_fast_charging p) true
            && Qle_bool 150 (get (Station.power_kw station) 50));
    destruct (Station.network station) as [n|];
    destruct (get (Preferences.preferred_charging_networks p) [])
      as [|n0 nets] eqn:En;
    cbv beta iota zeta;
    try change (py_in n []) with false;
    try destruct (py_in n (n0 :: nets));
    cbv beta iota; ring.
Qed.

Lemma spec_bonus_nonneg (station : Station.t)
    (preferences : option Preferences.t) :
  0 <= spec_bonus station preferences.
Proof.
  unfold spec_bonus.
  destruct preferences as [p|]; [|lra].
  destruct (dict_truthy p); [|lra].
  set (n := length (filter _ _)).
  assert (Hn : 0 <= inject_Z (Z.of_nat n)).
  { change 0 with (inject_Z 0). rewrite <- Zle_Qle. lia. }
  destruct (Station.network station) as [net|];
    try destruct (py_in net _);
    destruct (get (Preferences.prefer_fast_charging p) true && _); lra.
Qed.

Lemma calculate_station_score_eq (station : Station.t)
    (vehicle_specs : VehicleSpecs.t) (preferences : option Preferences.t) :
  ~ get (Station.stalls station) 1 == 0 ->
  exists s,
    _calculate_station_score station vehicle_specs preferences = Returned s
    /\ s <= 100
    /\ (spec_score_sum station vehicle_specs preferences <= 100 ->
        s == spec_score_sum station vehicle_specs preferences)
    /\ (100 <= spec_score_sum station vehicle_specs preferences -> s == 100)
    /\ (0 <= spec_score_sum station vehicle_specs preferences -> 0 <= s).
Proof.
  intro Hstalls. unfold _calculate_station_score, py_div.
  destruct (Qeq_bool (get (Station.stalls station) 1) 0) eqn:E.
  { apply Qeq_bool_iff in E. contradiction. }
  simpl. eexists. split; [reflexivity|].
  match goal with |- context [py_min 100 ?x] => set (total := x) end.
  assert (Htotal : total == spec_score_sum station vehicle_specs preferences).
  { unfold total. rewrite preference_bonus_spec. unfold spec_score_sum. ring. }
  split; [apply py_min_le_l|].
  unfold py_min. destruct (Qltb total 100) eqn:E1.
  - apply Qltb_true in E1. repeat split; auto; lra.
  - apply Qltb_false in E1. repeat split; auto; lra.
Qed.

Lemma spec_score_sum_nonneg (station : Station.t)
    (vehicle_specs : VehicleSpecs.t) (preferences : option Preferences.t) :
  0 <= get (Station.rating station) 3 ->
  0 <= get (Station.power_kw station) 50 ->
  0 <= get (VehicleSpecs.max_charging_power_kw vehicle_specs) 150 ->
  0 < get (Station.stalls station) 1 ->
  0 <= get (Station.available_stalls station) 1 ->
  0 <= spec_score_sum station vehicle_specs preferences.
Proof.
  intros Hr Hp Hv Ht Ha. unfold spec_score_sum.
  pose proof (spec_bonus_nonneg station preferences) as Hb.
  pose proof (py_max_ge_l 0 (15 - get (Station.wait_time_minutes station) 0)) as Hw.
  pose proof (py_max_ge_l 0 (20 - get (Station.distance_km station) 0 * 2)) as Hd.
  assert (Hm : 0 <= py_min (get (Station.power_kw station) 50)
                      (get (VehicleSpecs.max_charging_power_kw vehicle_specs) 150)).
  { destruct (py_min_cases (get (Station.power_kw station) 50)
                (get (VehicleSpecs.max_charging_power_kw vehicle_specs) 150))
      as [-> | ->]; assumption. }
  set (x := get (Station.available_stalls station) 1
            / get (Station.stalls station) 1).
  assert (Hx : 0 <= x).
  { unfold x. apply Qle_shift_div_l; [assumption | lra]. }
  clearbody x.
  assert (Hr' : 0 <= get (Station.rating station) 3 / 5)
    by (apply Qle_shift_div_l; lra).
  assert (Hm' : 0 <= py_min (get (Station.power_kw station) 50)
                       (get (VehicleSpecs.max_charging_power_kw vehicle_specs) 150)
                     / 350)
    by (apply Qle_shift_div_l; lra).
  revert Hr' Hm' Hw Hd Hb Hx.
  generalize (get (Station.rating station) 3 / 5).
  generalize (py_min (get (Station.power_kw station) 50)
                (get (VehicleSpecs.max_charging_power_kw vehicle_specs) 150) / 350).
  generalize (py_max 0 (15 - get (Station.wait_time_minutes station) 0)).
  generalize (py_max 0 (20 - get (Station.distance_km station) 0 * 2)).
  generalize (spec_bonus station preferences).
  intros; lra.
Qed.

(** C4, as amended.  [_filter_compatible_stations] keeps exactly the
    stations that have a connector type in common with the vehicle's
    supported connectors, so every station that
    [find_best_charging_station] selects for a charging stop shares a
    connector with the vehicle.  ([_find_optimal_stops] takes no vehicle
    connectors and applies no such test.) *)
Theorem selected_station_shares_a_connector (stations : list Station.t)
    (vehicle_specs : VehicleSpecs.t) :
  (forall station,
     In station (_filter_compatible_stations stations vehicle_specs) <->
     In station stations
     /\ exists connector,
          In connector (get (Station.connector_types station) [])
          /\ In connector
               (get (VehicleSpecs.supported_connectors vehicle_specs) []))
  /\ forall preferences best,
       find_best_charging_station stations vehicle_specs preferences = Some best ->
       In best stations
       /\ exists connector,
            In connector (get (Station.connector_types best) [])
            /\ In connector
                 (get (VehicleSpecs.supported_connectors vehicle_specs) []).
Proof.
  split.
  - intro station. rewrite filter_compatible_In, compatible_spec. tauto.
  - intros preferences best. unfold find_best_charging_station.
    destruct (_filter_compatible_stations stations vehicle_specs)
      as [|s0 rest] eqn:Ef; [discriminate|].
    destruct (score_all (s0 :: rest) vehicle_specs preferences)
      as [scored|e] eqn:Es; [|discriminate].
    destruct (sort_by_score scored) as [|top sorted] eqn:Eo; [discriminate|].
    intro H. inversion H; subst best; clear H.
    assert (Hin : In top (sort_by_score scored)) by (rewrite Eo; left; reflexivity).
    apply (proj1 (sort_by_score_In _ _)) in Hin.
    apply (score_all_In _ _ _ _ Es) in Hin.
    rewrite <- Ef in Hin. apply (proj1 (filter_compatible_In _ _ _)) in Hin.
    destruct Hin as [Hin Hc]. apply (proj1 (compatible_spec _ _)) in Hc. auto.
Qed.


End ChargingServiceFacts.

(** ** Facts about the route optimizer agent *)

Lemma calculate_charging_time_eq (charge_needed : Q)
    (vehicle_specs : ChargingService.VehicleSpecs.t)
    (charging_station : ChargingService.Station.t) (station_power : Q) :
  ChargingService.Station.power_kw charging_station = Some station_power ->
  ~ py_min station_power
      (get (ChargingService.VehicleSpecs.max_charging_power_kw vehicle_specs) 50)
    == 0 ->
  RouteOptimizerAgent._calculate_charging_time charge_needed vehicle_specs
    charging_station
  = Returned
      (py_int
         (charge_needed
          * get (ChargingService.VehicleSpecs.battery_capacity_kwh vehicle_specs) 60
          / (py_min station_power
               (get (ChargingService.VehicleSpecs.max_charging_power_kw vehicle_specs) 50)
             * (85 # 100))
          * 60)).
Proof.
  intros Hp Hne. unfold RouteOptimizerAgent._calculate_charging_time.
  rewrite Hp. unfold py_div.
  destruct (Qeq_bool _ 0) eqn:E.
  - apply Qeq_bool_iff in E. exfalso. apply Hne.
    assert (H85 : ~ (85 # 100) == 0) by (intro H; discriminate H).
    apply Qmult_integral in E. destruct E as [E|E]; [exact E | contradiction].
  - reflexivity.
Qed.


(** ** The claims on concrete trips *)

Lemma corridor_trip_stops : corridor_trip = Some (Returned corridor_stops).
Proof. vm_compute. reflexivity. Qed.

Lemma short_range_loop :
  while_true grid_distance 0 10 corridor 400 75 20 80 10
    (mkLoopState [] 0 0 90 0)
  = Some (Returned (NoReachableStations, short_range_stops)).
Proof. vm_compute. reflexivity. Qed.

(** C1 fails as stated: on the corridor with a 400 km vehicle at 90% the
    trip needs charging, the second pass finds no candidate, and the
    response still says [success = True] with the generic message. *)
Lemma infeasible_trip_reports_success :
  400 * (90 - 20) / 100 < grid_distance 0 0 0 10
  /\ while_true grid_distance 0 10 corridor 400 75 20 80 10
       (mkLoopState [] 0 0 90 0)
     = Some (Returned (NoReachableStations, short_range_stops))
  /\ length short_range_stops = 1%nat
  /\ match
       calculate_charging_stops grid_distance no_tomtom corridor
         0 0 0 10 400 75 90 20 80
     with
     | Some (Returned r) =>
         Response.success r <> false
         /\ Response.message r
            = "Route calculated successfully with real-time traffic"%string
     | _ => False
     end.
Proof.
  split; [vm_compute; reflexivity|].
  split; [exact short_range_loop|].
  split; [reflexivity|].
  vm_compute. split; [discriminate | reflexivity].
Qed.

Lemma no_candidate_response_witness :
  exists r,
    calculate_charging_stops grid_distance no_tomtom corridor
      0 0 0 10 400 75 90 20 80 = Some (Returned r)
    /\ Response.success r = true
    /\ Response.message r
       = "Route calculated successfully with real-time traffic"%string
    /\ Response.charging_stops r = short_range_stops
    /\ RouteSummary.num_charging_stops (Response.route_summary r)
       = length short_range_stops.
Proof.
  apply (no_candidate_response_reports_success grid_distance no_tomtom
           0 0 0 10 corridor 400 75 90 20 80 short_range_stops).
  - discriminate.
  - vm_compute. reflexivity.
  - exact short_range_loop.
Defined.


Lemma trip_within_usable_range_witness :
  exists r,
    calculate_charging_stops grid_distance no_tomtom corridor
      0 0 0 2 600 75 70 20 80 = Some (Returned r)
    /\ Response.charging_stops r = []
    /\ Response.success r = true.
Proof.
  apply (trip_within_usable_range_needs_no_stops grid_distance no_tomtom
           0 0 0 2 corridor 600 75 70 20 80).
  vm_compute. discriminate.
Defined.

Lemma battery_on_arrival_witness :
  20 <= 70
  /\ corridor_trip = Some (Returned corridor_stops)
  /\ exists stop,
       nth_error corridor_stops 1 = Some stop
       /\ 20 <= Stop.battery_on_arrival stop
       /\ Stop.battery_on_arrival stop
          = leg_battery 70 80 1 - Stop.distance_traveled stop / 600 * 100
       /\ 20 + (leg_battery 70 80 1 - 20) * (20 # 100)
          <= Stop.battery_on_arrival stop.
Proof.
  assert (Hmin : 20 <= 70) by (vm_compute; discriminate).
  split; [exact Hmin|]. split; [exact corridor_trip_stops|].
  unfold corridor_stops at 1. simpl nth_error.
  eexists. split; [reflexivity|].
  apply (battery_on_arrival_at_least_minimum grid_distance
           0 0 0 10 corridor 600 75 70 20 80 corridor_stops Hmin
           corridor_trip_stops 1%nat).
  reflexivity.
Defined.

Lemma distance_from_start_witness :
  corridor_trip = Some (Returned corridor_stops)
  /\ exists a b,
       nth_error corridor_stops 0 = Some a
       /\ nth_error corridor_stops 1 = Some b
       /\ Stop.distance_from_start a + 100 <= Stop.distance_from_start b
       /\ Stop.distance_from_start a < Stop.distance_from_start b.
Proof.
  split; [exact corridor_trip_stops|].
  unfold corridor_stops at 1 2. simpl nth_error.
  eexists. eexists. split; [reflexivity|]. split; [reflexivity|].
  apply (distance_from_start_strictly_increasing grid_distance
           0 0 0 10 corridor 600 75 70 20 80 corridor_stops
           corridor_trip_stops 0%nat 1%nat).
  - lia.
  - reflexivity.
  - reflexivity.
Defined.

Lemma charge_computed_witness :
  corridor_trip = Some (Returned corridor_stops)
  /\ exists stop,
       nth_error corridor_stops 0 = Some stop
       /\ Stop.kwh_charged stop = 75 * (80 - leg_battery 70 80 0) / 100
       /\ Stop.estimated_cost stop
          = Stop.kwh_charged stop * Stop.price_per_kwh stop.
Proof.
  split; [exact corridor_trip_stops|].
  unfold corridor_stops at 1. simpl nth_error.
  eexists. split; [reflexivity|].
  apply (charge_computed_from_leg_start_battery grid_distance
           0 0 0 10 corridor 600 75 70 20 80 corridor_stops
           corridor_trip_stops 0%nat).
  reflexivity.
Defined.



(** C4 fails as stated on the plans of [_find_optimal_stops]: the corridor
    plan stops at an AC station whatever connectors the vehicle supports. *)
Lemma find_optimal_stops_ignores_connectors :
  corridor_trip = Some (Returned corridor_stops)
  /\ match nth_error corridor_stops 3 with
     | Some stop =>
         Stop.connector_type stop = "AC Type 2"%string
         /\ spec_stop_compatible
              ["DC Fast Charge (CCS)"%string;
               "DC Fast Charge (CCS/CHAdeMO)"%string; "CCS"%string] stop
            = false
     | None => False
     end.
Proof.
  split; [exact corridor_trip_stops|]. vm_compute. split; reflexivity.
Qed.

Lemma selected_station_witness :
  ChargingService.find_best_charging_station
    [ChargingService.evgo_001; ChargingService.tesla_sc_001]
    ChargingService.ccs_vehicle (Some ChargingService.fast_and_wifi)
  = Some ChargingService.tesla_sc_001
  /\ In ChargingService.tesla_sc_001
       [ChargingService.evgo_001; ChargingService.tesla_sc_001]
  /\ exists connector,
       In connector
         (get (ChargingService.Station.connector_types
                 ChargingService.tesla_sc_001) [])
       /\ In connector
            (get (ChargingService.VehicleSpecs.supported_connectors
                    ChargingService.ccs_vehicle) []).
Proof.
  assert (H : ChargingService.find_best_charging_station
                [ChargingService.evgo_001; ChargingService.tesla_sc_001]
                ChargingService.ccs_vehicle (Some ChargingService.fast_and_wifi)
              = Some ChargingService.tesla_sc_001)
    by (vm_compute; reflexivity).
  split; [exact H|].
  exact (proj2 (ChargingServiceFacts.selected_station_shares_a_connector
                  [ChargingService.evgo_001; ChargingService.tesla_sc_001]
                  ChargingService.ccs_vehicle)
           (Some ChargingService.fast_and_wifi) ChargingService.tesla_sc_001 H).
Defined.





(** ** Facts about the catalogue *)

Module ChargingStationServiceFacts.

Import ChargingStationService.

Lemma get_all_stations_In (stations_df : option (list Row.t)) (e : Entry.t) :
  In e (get_all_stations stations_df) <->
  exists rows row,
    stations_df = Some rows /\ In row rows /\ e = add_metadata row.
Proof.
  unfold get_all_stations. destruct stations_df as [[|r rows]|].
  - split; [contradiction | intros (rows & row & H & Hin & _)].
    inversion H; subst. contradiction.
  - rewrite in_map_iff. split.
    + intros (row & <- & Hin). exists (r :: rows), row. auto.
    + intros (rows' & row & H & Hin & ->). inversion H; subst.
      exists row. auto.
  - split; [contradiction | intros (rows & row & H & _)]. discriminate.
Qed.

Lemma add_metadata_price (row : Row.t) :
  Entry.price_per_kwh (add_metadata row) = price_band (get (Row.power_kw row) 50)
  /\ Entry.power_kw (add_metadata row) = Row.power_kw row
  /\ (Entry.connector_type (add_metadata row)
        = "DC Fast Charge (CCS/CHAdeMO)"%string
      \/ Entry.connector_type (add_metadata row) = "DC Fast Charge (CCS)"%string
      \/ Entry.connector_type (add_metadata row) = "AC Type 2"%string).
Proof.
  unfold add_metadata, price_band.
  destruct (Qle_bool 150 (get (Row.power_kw row) 50));
    [|destruct (Qle_bool 50 (get (Row.power_kw row) 50))]; simpl; auto.
Qed.

(** X12.  On the catalogue of [get_all_stations] the planner never falls
    back on its defaults for price and connector: each stop's
    [price_per_kwh] is the price band of its charging power (0.45 from
    150 kW, 0.35 from 50 kW, 0.25 below), [estimated_cost] is
    [kwh_charged] times that band, and the connector type is one of the
    three strings that [get_all_stations] assigns. *)
Theorem catalogue_stops_priced_by_power_band
    (haversine_distance : Q -> Q -> Q -> Q -> Q)
    (stations_df : option (list Row.t))
    (start_lat start_lon end_lat end_lon : Q)
    (vehicle_range_km battery_capacity_kwh : Q)
    (current_battery_percent min_charge_percent preferred_charge_percent : Q)
    (l : list Stop.t) :
  _find_optimal_stops haversine_distance start_lat start_lon end_lat end_lon
    (map as_station (get_all_stations stations_df))
    vehicle_range_km battery_capacity_kwh current_battery_percent
    min_charge_percent preferred_charge_percent
  = Some (Returned l) ->
  forall stop, In stop l ->
    Stop.price_per_kwh stop = price_band (Stop.charging_power_kw stop)
    /\ Stop.estimated_cost stop
       = Stop.kwh_charged stop * price_band (Stop.charging_power_kw stop)
    /\ (Stop.connector_type stop = "DC Fast Charge (CCS/CHAdeMO)"%string
        \/ Stop.connector_type stop = "DC Fast Charge (CCS)"%string
        \/ Stop.connector_type stop = "AC Type 2"%string).
Proof.
  intros Hplan stop Hin.
  apply In_nth_error in Hin. destruct Hin as [i Hi].
  destruct (plan_kwh _ _ _ _ _ _ _ _ _ _ _ l Hplan i stop Hi)
    as (_ & Hc & _ & _ & _ & station & Hs & Hp & Hpr & Hct & _).
  apply in_map_iff in Hs. destruct Hs as (e & <- & He).
  apply get_all_stations_In in He. destruct He as (rows & row & _ & _ & ->).
  destruct (add_metadata_price row) as (Hprice & Hpow & Hconn).
  unfold as_station in *. simpl in Hp, Hpr, Hct.
  rewrite Hpow in Hp. rewrite Hprice in Hpr.
  rewrite Hc, Hpr, Hp, Hct. auto.
Qed.

Lemma power_column_Raised (rows : list Row.t) (e : exn) :
  power_column rows = Raised e ->
  e = KeyError "power_kw"
  /\ exists row, In row rows /\ Row.power_kw row = None.
Proof.
  induction rows as [|row rows IH]; simpl.
  - discriminate.
  - destruct (Row.power_kw row) as [power|] eqn:E.
    + destruct (power_column rows) as [rest|e']; simpl; [discriminate|].
      intro H. inversion H; subst e'.
      destruct (IH eq_refl) as (He & r & Hin & Hr). eauto.
    + intro H. inversion H. eauto.
Qed.

(** X13.  [get_stations_by_power] ignores its bounds: whenever it returns,
    the result is the whole catalogue of [get_all_stations], whatever
    [min_power] and [max_power] are.  It raises [KeyError] only when a
    record has no [power_kw]. *)
Theorem get_stations_by_power_ignores_bounds
    (stations_df : option (list Row.t)) (min_power max_power : Q) :
  match get_stations_by_power stations_df min_power max_power with
  | Returned l => l = get_all_stations stations_df
  | Raised e =>
      e = KeyError "power_kw"
      /\ exists rows row,
           stations_df = Some rows /\ In row rows /\ Row.power_kw row = None
  end.
Proof.
  unfold get_stations_by_power.
  destruct stations_df as [[|r rows]|]; try reflexivity.
  destruct (power_column (r :: rows)) as [column|e] eqn:E; simpl.
  - reflexivity.
  - destruct (power_column_Raised _ _ E) as (He & row & Hin & Hr).
    split; [exact He|]. exists (r :: rows), row. auto.
Qed.

Lemma insert_by_distance_In (x y : Entry.t) (l : list Entry.t) :
  In y (insert_by_distance x l) <-> y = x \/ In y l.
Proof.
  induction l as [|z l IH]; simpl.
  - split; intros [H|H]; auto.
  - destruct (closer z x); simpl; [rewrite IH|];
      split; intros; intuition auto.
Qed.

Lemma sort_by_distance_In (y : Entry.t) (l : list Entry.t) :
  In y (sort_by_distance l) <-> In y l.
Proof.
  unfold sort_by_distance. induction l as [|x l IH]; simpl.
  - tauto.
  - rewrite insert_by_distance_In, IH. split; intros [H|H]; auto.
Qed.

Lemma insert_by_distance_sorted (x : Entry.t) (l : list Entry.t) :
  (exists d, Entry.distance_km x = Some d) ->
  Forall (fun e => exists d, Entry.distance_km e = Some d) l ->
  StronglySorted not_farther l ->
  StronglySorted not_farther (insert_by_distance x l).
Proof.
  intros [dx Hx] Hall Hsorted.
  induction l as [|y l IH]; simpl.
  - constructor; constructor.
  - inversion Hall as [|? ? [dy Hy] Hall']; subst.
    inversion Hsorted as [|? ? Hs Hfy]; subst.
    unfold closer. rewrite Hx, Hy.
    destruct (Qltb dy dx) eqn:E.
    + apply Qltb_true in E. constructor; [apply IH; assumption|].
      apply Forall_forall. intros z Hz.
      apply insert_by_distance_In in Hz. destruct Hz as [->|Hz].
      * exists dy, dx. repeat split; auto. apply Qlt_le_weak. exact E.
      * rewrite Forall_forall in Hfy. apply Hfy. exact Hz.
    + apply Qltb_false in E. constructor; [exact Hsorted|].
      constructor.
      * exists dx, dy. auto.
      * apply Forall_forall. intros z Hz.
        rewrite Forall_forall in Hfy.
        destruct (Hfy z Hz) as (dy' & dz & Hy' & Hzd & Hle).
        rewrite Hy in Hy'. inversion Hy'; subst dy'.
        exists dx, dz. repeat split; auto. eapply Qle_trans; eauto.
Qed.

Lemma within_radius_In (haversine : Q -> Q -> Q -> Q -> Q)
    (latitude longitude radius_km : Q) (stations : list Entry.t) (e : Entry.t) :
  In e (within_radius haversine latitude longitude radius_km stations) <->
  exists station,
    In station stations
    /\ haversine latitude longitude (Entry.latitude station)
         (Entry.longitude station) <= radius_km
    /\ e = set_distance station
             (py_round (haversine latitude longitude (Entry.latitude station)
                          (Entry.longitude station)) 2).
Proof.
  induction stations as [|s l IH]; simpl.
  - split; [contradiction | intros (x & [] & _)].
  - destruct (Qle_bool _ radius_km) eqn:E; simpl; rewrite IH.
    + apply Qle_bool_iff in E. split.
      * intros [<-|(x & Hx & Hd & He)]; [exists s; auto | exists x; auto].
      * intros (x & [->|Hx] & Hd & He); [left; auto | right; exists x; auto].
    + apply Qle_bool_false in E. split.
      * intros (x & Hx & Hd & He). exists x; auto.
      * intros (x & [->|Hx] & Hd & He); [exfalso; lra | exists x; auto].
Qed.

(** X14.  [get_stations_in_radius] returns exactly the catalogue stations
    whose distance from the given point is at most the radius, each with
    its distance rounded to two decimals in [distance_km], and lists them
    in order of increasing [distance_km]. *)
Theorem stations_in_radius_complete_and_sorted
    (haversine : Q -> Q -> Q -> Q -> Q) (stations_df : option (list Row.t))
    (latitude longitude radius_km : Q) :
  (forall e,
     In e (get_stations_in_radius haversine stations_df latitude longitude
             radius_km)
     <-> exists station,
           In station (get_all_stations stations_df)
           /\ haversine latitude longitude (Entry.latitude station)
                (Entry.longitude station) <= radius_km
           /\ e = set_distance station
                    (py_round (haversine latitude longitude
                                 (Entry.latitude station)
                                 (Entry.longitude station)) 2))
  /\ StronglySorted not_farther
       (get_stations_in_radius haversine stations_df latitude longitude
          radius_km).
Proof.
  assert (Hsort : forall l,
            Forall (fun e => exists d, Entry.distance_km e = Some d) l ->
            StronglySorted not_farther (sort_by_distance l)).
  { induction l as [|x l IH]; intro Hall; simpl.
    - constructor.
    - inversion Hall as [|? ? Hx Hl]; subst.
      change (StronglySorted not_farther
                (insert_by_distance x (sort_by_distance l))).
      apply insert_by_distance_sorted.
      + exact Hx.
      + apply Forall_forall. intros y Hy.
        apply (proj1 (sort_by_distance_In _ _)) in Hy.
        rewrite Forall_forall in Hl. auto.
      + apply IH. exact Hl. }
  unfold get_stations_in_radius.
  destruct stations_df as [[|r rows]|].
  - split; [|constructor]. intro e. split; [contradiction|].
    intros (x & [] & _).
  - split.
    + intro e. rewrite sort_by_distance_In. apply within_radius_In.
    + apply Hsort. apply Forall_forall. intros e He.
      apply within_radius_In in He. destruct He as (x & _ & _ & ->).
      simpl. eauto.
  - split; [|constructor]. intro e. split; [contradiction|].
    intros (x & [] & _).
Qed.

End ChargingStationServiceFacts.

(** ** More facts about the charging service *)

Module ChargingServiceMoreFacts.

Import ChargingService.

Lemma filter_compatible_filter (stations : list Station.t)
    (vehicle_specs : VehicleSpecs.t) :
  _filter_compatible_stations stations vehicle_specs
  = filter (compatible vehicle_specs) stations.
Proof.
  induction stations as [|s l IH]; simpl.
  - reflexivity.
  - destruct (compatible vehicle_specs s); rewrite IH; reflexivity.
Qed.

Lemma filter_twice {A : Type} (f : A -> bool) (l : list A) :
  filter f (filter f l) = filter f l.
Proof.
  induction l as [|x l IH]; simpl.
  - reflexivity.
  - destruct (f x) eqn:E; simpl; [rewrite E, IH|]; auto.
Qed.

(** X15.  [_filter_compatible_stations] is a filter: it keeps the
    compatible stations in their order, filtering its own result changes
    nothing, and a vehicle with no supported connector (the key missing or
    the list empty) gets the empty list. *)
Theorem filter_compatible_stations_is_a_filter (stations : list Station.t)
    (vehicle_specs : VehicleSpecs.t) :
  _filter_compatible_stations stations vehicle_specs
    = filter (compatible vehicle_specs) stations
  /\ _filter_compatible_stations
       (_filter_compatible_stations stations vehicle_specs) vehicle_specs
     = _filter_compatible_stations stations vehicle_specs
  /\ (get (VehicleSpecs.supported_connectors vehicle_specs) [] = [] ->
      _filter_compatible_stations stations vehicle_specs = []).
Proof.
  split; [apply filter_compatible_filter|]. split.
  - rewrite !filter_compatible_filter. apply filter_twice.
  - intro Hnone. rewrite filter_compatible_filter.
    induction stations as [|s l IH]; simpl; [reflexivity|].
    assert (Hc : compatible vehicle_specs s = false).
    { unfold compatible. rewrite Hnone.
      induction (get (Station.connector_types s) []) as [|c cs IHc];
        simpl; auto. }
    rewrite Hc. exact IH.
Qed.

Lemma score_all_scores (stations : list Station.t)
    (vehicle_specs : VehicleSpecs.t) (preferences : option Preferences.t)
    (scored : list (Station.t * Q)) :
  score_all stations vehicle_specs preferences = Returned scored ->
  (forall y, In y scored ->
     _calculate_station_score (fst y) vehicle_specs preferences
     = Returned (snd y))
  /\ (forall s, In s stations -> exists q, In (s, q) scored).
Proof.
  revert scored. induction stations as [|s l IH]; simpl; intros scored H.
  - inversion H; subst. split; [intros y [] | intros x []].
  - destruct (_calculate_station_score s vehicle_specs preferences)
      as [q|e] eqn:Eq; simpl in H; [|discriminate].
    destruct (score_all l vehicle_specs preferences) as [rest|e];
      simpl in H; [|discriminate].
    inversion H; subst. destruct (IH rest eq_refl) as [H1 H2]. split.
    + intros y [<-|Hy]; [exact Eq | auto].
    + intros x [<-|Hx]; [exists q; left; reflexivity|].
      destruct (H2 x Hx) as [q' Hq']. exists q'. right. exact Hq'.
Qed.

Lemma score_all_Raised (stations : list Station.t)
    (vehicle_specs : VehicleSpecs.t) (preferences : option Preferences.t)
    (e : exn) :
  score_all stations vehicle_specs preferences = Raised e ->
  exists s, In s stations
    /\ _calculate_station_score s vehicle_specs preferences = Raised e.
Proof.
  induction stations as [|s l IH]; simpl.
  - discriminate.
  - destruct (_calculate_station_score s vehicle_specs preferences)
      as [q|e'] eqn:Eq; simpl.
    + destruct (score_all l vehicle_specs preferences) as [rest|e'];
        simpl; [discriminate|].
      intro H. inversion H; subst e'.
      destruct (IH eq_refl) as (x & Hx & Hr). eauto.
    + intro H. inversion H; subst e'. eauto.
Qed.

Lemma insert_by_score_top (x : Station.t * Q) (l : list (Station.t * Q)) :
  (forall top rest, l = top :: rest ->
     forall y, In y l -> snd y <= snd top) ->
  forall top rest, insert_by_score x l = top :: rest ->
    forall y, In y (insert_by_score x l) -> snd y <= snd top.
Proof.
  intros Hl top rest Heq y Hy.
  destruct l as [|z l']; simpl in *.
  - inversion Heq; subst. destruct Hy as [<-|[]]. apply Qle_refl.
  - specialize (Hl z l' eq_refl).
    destruct (Qltb (snd x) (snd z)) eqn:E.
    + apply Qltb_true in E. inversion Heq; subst top rest.
      destruct Hy as [<-|Hy]; [apply Qle_refl|].
      apply ChargingServiceFacts.insert_by_score_In in Hy.
      destruct Hy as [->|Hy]; [apply Qlt_le_weak; exact E|].
      apply Hl. right. exact Hy.
    + apply Qltb_false in E. inversion Heq; subst top rest.
      destruct Hy as [<-|Hy]; [apply Qle_refl|].
      eapply Qle_trans; [apply Hl; exact Hy | exact E].
Qed.

Lemma sort_by_score_top (l : list (Station.t * Q)) :
  forall top rest, sort_by_score l = top :: rest ->
    forall y, In y l -> snd y <= snd top.
Proof.
  induction l as [|x l IH]; intros top rest Heq y Hy.
  - contradiction.
  - change (sort_by_score (x :: l))
      with (insert_by_score x (sort_by_score l)) in Heq.
    apply (insert_by_score_top x (sort_by_score l)) with (rest := rest).
    + intros t r Ht z Hz. apply (IH t r Ht).
      apply ChargingServiceFacts.sort_by_score_In. exact Hz.
    + exact Heq.
    + apply ChargingServiceFacts.insert_by_score_In.
      destruct Hy as [<-|Hy]; [left; reflexivity | right].
      apply ChargingServiceFacts.sort_by_score_In. exact Hy.
Qed.

(** X16.  The station that [find_best_charging_station] returns has the
    best score: its score is computed without error and no compatible
    station nearby has a greater one. *)
Theorem find_best_station_has_the_best_score (nearby : list Station.t)
    (vehicle_specs : VehicleSpecs.t) (preferences : option Preferences.t)
    (best : Station.t) :
  find_best_charging_station nearby vehicle_specs preferences = Some best ->
  exists best_score,
    _calculate_station_score best vehicle_specs preferences
    = Returned best_score
    /\ forall station, In station nearby ->
         compatible vehicle_specs station = true ->
         exists score,
           _calculate_station_score station vehicle_specs preferences
           = Returned score
           /\ score <= best_score.
Proof.
  unfold find_best_charging_station.
  destruct (_filter_compatible_stations nearby vehicle_specs)
    as [|s0 rest] eqn:Ef; [discriminate|].
  destruct (score_all (s0 :: rest) vehicle_specs preferences)
    as [scored|e] eqn:Es; [|discriminate].
  destruct (sort_by_score scored) as [|top sorted] eqn:Eo; [discriminate|].
  intro H. inversion H; subst best; clear H.
  destruct (score_all_scores _ _ _ _ Es) as [Hscore Hall].
  assert (Htop : In top scored).
  { apply ChargingServiceFacts.sort_by_score_In. rewrite Eo. left. reflexivity. }
  exists (snd top). split; [apply Hscore; exact Htop|].
  intros station Hin Hc.
  assert (Hf : In station (s0 :: rest)).
  { rewrite <- Ef. apply ChargingServiceFacts.filter_compatible_In. auto. }
  destruct (Hall station Hf) as [q Hq].
  exists q. split; [apply (Hscore (station, q) Hq)|].
  apply (sort_by_score_top scored top sorted Eo (station, q) Hq).
Qed.

(** X17.  [find_best_charging_station] returns nothing in two cases only:
    no station nearby is compatible with the vehicle, or the score of a
    compatible station raised, which means that station reports a stall
    total of 0; one such record loses the recommendation for all. *)
Theorem find_best_station_none (nearby : list Station.t)
    (vehicle_specs : VehicleSpecs.t) (preferences : option Preferences.t) :
  find_best_charging_station nearby vehicle_specs preferences = None <->
  (forall station, In station nearby ->
     compatible vehicle_specs station = false)
  \/ (exists station,
        In station nearby /\ compatible vehicle_specs station = true
        /\ get (Station.stalls station) 1 == 0).
Proof.
  unfold find_best_charging_station. split.
  - destruct (_filter_compatible_stations nearby vehicle_specs)
      as [|s0 rest] eqn:Ef.
    + intros _. left. intros station Hin.
      destruct (compatible vehicle_specs station) eqn:Ec; [|reflexivity].
      assert (Hf : In station (_filter_compatible_stations nearby vehicle_specs))
        by (apply ChargingServiceFacts.filter_compatible_In; auto).
      rewrite Ef in Hf. contradiction.
    + destruct (score_all (s0 :: rest) vehicle_specs preferences)
        as [scored|e] eqn:Es.
      * destruct (sort_by_score scored) as [|top sorted] eqn:Eo;
          [|discriminate].
        intros _. exfalso.
        destruct (score_all_scores _ _ _ _ Es) as [_ Hall].
        destruct (Hall s0 (or_introl eq_refl)) as [q Hq].
        apply ChargingServiceFacts.sort_by_score_In in Hq.
        rewrite Eo in Hq. contradiction.
      * intros _. right.
        destruct (score_all_Raised _ _ _ _ Es) as (s & Hs & Hr).
        rewrite <- Ef in Hs.
        apply ChargingServiceFacts.filter_compatible_In in Hs.
        destruct Hs as [Hin Hc]. exists s. repeat split; auto.
        destruct (Qeq_dec (get (Station.stalls s) 1) 0) as [H0|H0]; [exact H0|].
        destruct (ChargingServiceFacts.calculate_station_score_eq s
                    vehicle_specs preferences H0) as (q & Hq & _).
        rewrite Hq in Hr. discriminate.
  - intros [Hnone|(station & Hin & Hc & H0)].
    + assert (Hf : _filter_compatible_stations nearby vehicle_specs = []).
      { destruct (_filter_compatible_stations nearby vehicle_specs)
          as [|s0 rest] eqn:Ef; [reflexivity|].
        assert (Hs : In s0 (_filter_compatible_stations nearby vehicle_specs))
          by (rewrite Ef; left; reflexivity).
        apply ChargingServiceFacts.filter_compatible_In in Hs.
        destruct Hs as [Hs Hc]. rewrite (Hnone s0 Hs) in Hc. discriminate. }
      rewrite Hf. reflexivity.
    + assert (Hf : In station (_filter_compatible_stations nearby vehicle_specs))
        by (apply ChargingServiceFacts.filter_compatible_In; auto).
      destruct (_filter_compatible_stations nearby vehicle_specs)
        as [|s0 rest] eqn:Ef; [reflexivity|].
      destruct (score_all (s0 :: rest) vehicle_specs preferences)
        as [scored|e] eqn:Es; [|reflexivity].
      exfalso.
      destruct (score_all_scores _ _ _ _ Es) as [Hscore Hall].
      destruct (Hall station Hf) as [q Hq].
      specialize (Hscore (station, q) Hq). simpl in Hscore.
      unfold _calculate_station_score, py_div in Hscore.
      apply Qeq_bool_iff in H0. rewrite H0 in Hscore. discriminate.
Qed.

(** X18.  Preferences never lower a score: for a station with a stall
    total other than 0, the score with any preference set is at least the
    score without one. *)
Theorem preferences_never_lower_the_score (station : Station.t)
    (vehicle_specs : VehicleSpecs.t) (p : Preferences.t) :
  ~ get (Station.stalls station) 1 == 0 ->
  exists plain preferred,
    _calculate_station_score station vehicle_specs None = Returned plain
    /\ _calculate_station_score station vehicle_specs (Some p)
       = Returned preferred
    /\ plain <= preferred.
Proof.
  intro Hstalls.
  destruct (ChargingServiceFacts.calculate_station_score_eq station
              vehicle_specs None Hstalls) as (s0 & Hs0 & Hle0 & Hsum0 & Hcap0 & _).
  destruct (ChargingServiceFacts.calculate_station_score_eq station
              vehicle_specs (Some p) Hstalls)
    as (s1 & Hs1 & Hle1 & Hsum1 & Hcap1 & _).
  exists s0, s1. split; [exact Hs0|]. split; [exact Hs1|].
  pose proof (ChargingServiceFacts.spec_bonus_nonneg station (Some p)) as Hb.
  assert (Hrel : spec_score_sum station vehicle_specs (Some p)
                 == spec_score_sum station vehicle_specs None
                    + spec_bonus station (Some p)).
  { unfold spec_score_sum. change (spec_bonus station None) with 0. ring. }
  destruct (Qlt_le_dec 100 (spec_score_sum station vehicle_specs (Some p)))
    as [Hbig|Hsmall].
  - rewrite (Hcap1 (Qlt_le_weak _ _ Hbig)). exact Hle0.
  - rewrite (Hsum1 Hsmall).
    assert (H0 : spec_score_sum station vehicle_specs None <= 100) by lra.
    rewrite (Hsum0 H0). lra.
Qed.

End ChargingServiceMoreFacts.

(** ** Facts about the charging time estimate *)

Module ChargingEstimateFacts.

Import ChargingEstimate.

Lemma curve_share_bounds (current_soc : Q) :
  4 # 10 <= curve_share current_soc /\ curve_share current_soc <= 95 # 100.
Proof.
  unfold curve_share.
  destruct (Qltb current_soc (2 # 10)); [split; [discriminate | apply Qle_refl]|].
  destruct (Qltb current_soc (5 # 10)); [split; discriminate|].
  destruct (Qltb current_soc (8 # 10)); [split; discriminate|].
  split; [apply Qle_refl | discriminate].
Qed.

Lemma py_int_nonneg (x : Q) : 0 <= x -> (0 <= py_int x)%Z.
Proof.
  intro H. unfold py_int. apply Z.quot_pos; [|lia].
  unfold Qle in H. simpl in H. lia.
Qed.


End ChargingEstimateFacts.

(** ** Facts about the base route *)

Module NavigationServiceFacts.

Import NavigationService.

Lemma nth_error_map_seq {A : Type} (f : nat -> A) (n a i : nat) (x : A) :
  nth_error (map f (seq a n)) i = Some x -> (i < n)%nat /\ x = f (a + i)%nat.
Proof.
  revert a i. induction n as [|n IH]; intros a i H; simpl in H.
  - destruct i; discriminate.
  - destruct i as [|i]; simpl in H.
    + inversion H. split; [lia | f_equal; lia].
    + apply IH in H. destruct H as [Hlt ->]. split; [lia | f_equal; lia].
Qed.

Lemma nth_error_map_seq0 {A : Type} (f : nat -> A) (n i : nat) (x : A) :
  nth_error (map f (seq 0 n)) i = Some x -> (i < n)%nat /\ x = f i.
Proof. intro H. apply nth_error_map_seq in H. exact H. Qed.

Lemma py_sum_constant (c : Q) (n : nat) (a : Q) :
  fold_left Qplus (repeat c n) a == a + inject_Z (Z.of_nat n) * c.
Proof.
  revert a. induction n as [|n IH]; intro a.
  - simpl. change (inject_Z 0) with 0. ring.
  - change (fold_left Qplus (repeat c (S n)) a)
      with (fold_left Qplus (repeat c n) (a + c)).
    rewrite IH, Nat2Z.inj_succ. unfold Z.succ. rewrite inject_Z_plus.
    change (inject_Z 1) with 1. ring.
Qed.

Lemma num_segments_at_least_2 (distance_km : Q) :
  (2 <= Z.max 2 (py_int (distance_km / 100)))%Z.
Proof. lia. Qed.

Lemma base_route_segment_fields
    (_calculate_distance : Q -> Q -> Q -> Q -> Q) (start destination : Q * Q)
    (segment : Segment.t) :
  let route := calculate_base_route _calculate_distance start destination in
  let distance_km := BaseRoute.total_distance_km route in
  In segment (BaseRoute.segments route) ->
  Segment.distance_km segment
    = distance_km / inject_Z (Z.max 2 (py_int (distance_km / 100)))
  /\ (Segment.elevation_gain_m segment = Some 0
      \/ Segment.elevation_gain_m segment = Some 100)
  /\ Segment.avg_speed_kmh segment = Some 80.
Proof.
  intros route distance_km Hin. unfold route, calculate_base_route in Hin.
  cbn [BaseRoute.segments] in Hin.
  apply in_map_iff in Hin. destruct Hin as (i & <- & _).
  unfold segment_at.
  cbn [Segment.distance_km Segment.elevation_gain_m Segment.avg_speed_kmh].
  split; [reflexivity|]. split; [|reflexivity].
  assert (Hmod : (0 <= Z.of_nat i mod 3 < 3)%Z)
    by (apply Z.mod_pos_bound; lia).
  destruct (Z.eq_dec (Z.of_nat i mod 3) 2) as [E|E].
  - right. rewrite E. reflexivity.
  - left. f_equal.
    replace (Z.max 0 ((Z.of_nat i mod 3 - 1) * 100)) with 0%Z by lia.
    reflexivity.
Qed.

(** X20.  The segments of [calculate_base_route] tile the route: there are
    [max(2, int(distance / 100))] of them, at least two; the first starts at
    the start, each one ends where the next starts, the last ends at the
    destination; each is [distance / num_segments] long, so the lengths add
    up to the total distance; the mock elevation gain is 0 or 100 m and the
    speed is 80 km/h. *)
Theorem base_route_segments_tile_the_route
    (_calculate_distance : Q -> Q -> Q -> Q -> Q) (start destination : Q * Q) :
  let route := calculate_base_route _calculate_distance start destination in
  let segments := BaseRoute.segments route in
  let distance_km := BaseRoute.total_distance_km route in
  let num_segments := Z.max 2 (py_int (distance_km / 100)) in
  length segments = Z.to_nat num_segments
  /\ (2 <= length segments)%nat
  /\ (forall segment, nth_error segments 0 = Some segment ->
        fst (Segment.start segment) == fst start
        /\ snd (Segment.start segment) == snd start)
  /\ (forall i segment next,
        nth_error segments i = Some segment ->
        nth_error segments (S i) = Some next ->
        Segment.end_ segment = Segment.start next)
  /\ (forall segment,
        nth_error segments (length segments - 1) = Some segment ->
        fst (Segment.end_ segment) == fst destination
        /\ snd (Segment.end_ segment) == snd destination)
  /\ (forall segment, In segment segments ->
        Segment.distance_km segment = distance_km / inject_Z num_segments
        /\ (Segment.elevation_gain_m segment = Some 0
            \/ Segment.elevation_gain_m segment = Some 100)
        /\ Segment.avg_speed_kmh segment = Some 80)
  /\ py_sum (map Segment.distance_km segments) == distance_km.
Proof.
  intros route segments distance_km num_segments.
  assert (Hn : (2 <= num_segments)%Z) by apply num_segments_at_least_2.
  assert (Hseg : segments
                 = map (fun i => segment_at start destination distance_km
                                   num_segments (Z.of_nat i))
                     (seq 0 (Z.to_nat num_segments))) by reflexivity.
  assert (Hlen : length segments = Z.to_nat num_segments).
  { rewrite Hseg, length_map, length_seq. reflexivity. }
  assert (Hne : ~ inject_Z num_segments == 0).
  { change 0 with (inject_Z 0). rewrite inject_Z_injective. lia. }
  split; [exact Hlen|]. split; [lia|]. split; [|split; [|split; [|split]]].
  - intros segment H0. rewrite Hseg in H0.
    apply nth_error_map_seq0 in H0. destruct H0 as [_ ->].
    unfold segment_at. cbn [Segment.start fst snd Z.of_nat].
    change (inject_Z 0) with 0. split; field; exact Hne.
  - intros i segment next Hi Hj. rewrite Hseg in Hi, Hj.
    apply nth_error_map_seq0 in Hi. apply nth_error_map_seq0 in Hj.
    destruct Hi as [_ ->]. destruct Hj as [_ ->].
    unfold segment_at. cbn [Segment.start Segment.end_].
    rewrite Nat2Z.inj_succ. reflexivity.
  - intros segment Hlast. rewrite Hseg in Hlast at 1.
    apply nth_error_map_seq0 in Hlast. destruct Hlast as [_ ->].
    unfold segment_at. cbn [Segment.end_ fst snd].
    replace (Z.of_nat (length segments - 1) + 1)%Z with num_segments by lia.
    split; field; exact Hne.
  - intros segment Hin.
    apply (base_route_segment_fields _calculate_distance start destination
             segment Hin).
  - assert (Hconst : map Segment.distance_km segments
                     = repeat (distance_km / inject_Z num_segments)
                         (Z.to_nat num_segments)).
    { rewrite Hseg, map_map. simpl.
      generalize (Z.to_nat num_segments) as n. generalize 0%nat as a.
      intros a n. revert a. induction n as [|n IH]; intro a; simpl.
      - reflexivity.
      - rewrite IH. reflexivity. }
    unfold py_sum. rewrite Hconst, py_sum_constant.
    rewrite Z2Nat.id by lia. field. exact Hne.
Qed.

End NavigationServiceFacts.

(** ** Facts about the route optimizer's energy model *)

Module RouteOptimizerFacts.

Import NavigationService.
Import RouteOptimizer.

(** X21.  [_analyze_energy_requirements] raises [ZeroDivisionError] exactly
    when the battery capacity is 0.  Otherwise the energy deficit and the
    estimated final battery are never negative, charging is needed exactly
    when the deficit is positive, and when no charging is needed (and the
    capacity is positive) the estimated final battery is at least the 20%
    safety buffer. *)
Theorem energy_analysis_outcome (base_route : BaseRoute.t)
    (vehicle_specs : VehicleSpecs.t) (current_battery_level : Q) :
  let battery_capacity :=
    get (VehicleSpecs.battery_capacity_kwh vehicle_specs) 60 in
  match
    _analyze_energy_requirements base_route vehicle_specs current_battery_level
  with
  | Raised e => e = ZeroDivisionError /\ battery_capacity == 0
  | Returned a =>
      ~ battery_capacity == 0
      /\ 0 <= EnergyAnalysis.energy_deficit a
      /\ 0 <= EnergyAnalysis.estimated_final_battery a
      /\ (EnergyAnalysis.needs_charging a = true
          <-> 0 < EnergyAnalysis.energy_deficit a)
      /\ (EnergyAnalysis.needs_charging a = false -> 0 < battery_capacity ->
          SAFETY_BUFFER_PERCENTAGE <= EnergyAnalysis.estimated_final_battery a)
      /\ EnergyAnalysis.total_energy_needed a
         == BaseRoute.total_distance_km base_route
            * get (VehicleSpecs.energy_consumption_kwh_per_100km vehicle_specs) 20
            / 100 * (1155 # 1000)
  end.
Proof.
  intro battery_capacity. unfold _analyze_energy_requirements.
  fold battery_capacity.
  set (total := BaseRoute.total_distance_km base_route
                * get (VehicleSpecs.energy_consumption_kwh_per_100km vehicle_specs) 20
                / 100 * (11 # 10) * (105 # 100)).
  set (usable := battery_capacity * current_battery_level
                 - battery_capacity * SAFETY_BUFFER_PERCENTAGE).
  unfold py_div.
  destruct (Qeq_bool battery_capacity 0) eqn:E; simpl.
  - apply Qeq_bool_iff in E. auto.
  - apply Qeq_bool_neq in E. split; [exact E|].
    split; [apply py_max_ge_l|]. split; [apply py_max_ge_l|].
    split; [|split].
    + unfold py_max. split.
      * intro H. apply Qltb_true in H.
        assert (H0 : Qltb 0 (total - usable) = true) by (apply Qltb_true; lra).
        rewrite H0. lra.
      * destruct (Qltb 0 (total - usable)) eqn:H0.
        -- intros _. apply Qltb_true in H0. apply Qltb_true. lra.
        -- intro H. exfalso. apply (Qlt_irrefl 0). exact H.
    + intros Hno Hcap. apply Qltb_false in Hno.
      eapply Qle_trans; [|apply py_max_ge_r].
      apply Qle_shift_div_l; [exact Hcap|].
      unfold usable, SAFETY_BUFFER_PERCENTAGE in *. lra.
    + unfold total. field.
Qed.

(** X22.  [_calculate_segment_energy] never goes below the base
    consumption [distance * rate / 100] of a segment with non-negative
    distance, rate and elevation gain; with no elevation gain and a speed of
    at most 80 km/h it is exactly the base consumption. *)
Theorem segment_energy_at_least_base (segment : Segment.t)
    (vehicle_specs : VehicleSpecs.t) :
  let rate :=
    get (VehicleSpecs.energy_consumption_kwh_per_100km vehicle_specs) 20 in
  let base := Segment.distance_km segment * rate / 100 in
  0 <= Segment.distance_km segment ->
  0 <= rate ->
  0 <= get (Segment.elevation_gain_m segment) 0 ->
  base <= _calculate_segment_energy segment vehicle_specs
  /\ (get (Segment.elevation_gain_m segment) 0 == 0 ->
      get (Segment.avg_speed_kmh segment) 80 <= 80 ->
      _calculate_segment_energy segment vehicle_specs == base).
Proof.
  intros rate base Hd Hr He. unfold _calculate_segment_energy.
  fold rate. fold base.
  pose proof (py_max_ge_l 0 (get (Segment.avg_speed_kmh segment) 80 - 80)) as Hs.
  set (over := py_max 0 (get (Segment.avg_speed_kmh segment) 80 - 80)) in *.
  set (gain := get (Segment.elevation_gain_m segment) 0) in *.
  assert (Hb : 0 <= base).
  { unfold base. apply Qle_shift_div_l; [reflexivity|].
    rewrite Qmult_0_l. apply Qmult_le_0_compat; assumption. }
  assert (Hef : 1 <= 1 + gain / 1000 * (1 # 10)).
  { assert (0 <= gain / 1000) by (apply Qle_shift_div_l; [reflexivity | lra]).
    lra. }
  assert (Hsf : 1 <= 1 + over / 100 * (1 # 10)).
  { assert (0 <= over / 100) by (apply Qle_shift_div_l; [reflexivity | lra]).
    lra. }
  split.
  - clearbody base over gain.
    set (ef := 1 + gain / 1000 * (1 # 10)) in *.
    set (sf := 1 + over / 100 * (1 # 10)) in *.
    clearbody ef sf.
    assert (H1 : 0 <= base * (ef - 1)) by (apply Qmult_le_0_compat; lra).
    assert (H2 : 0 <= base * ef * (sf - 1)).
    { apply Qmult_le_0_compat; [apply Qmult_le_0_compat; lra | lra]. }
    assert (E : base * ef * sf == base + base * (ef - 1) + base * ef * (sf - 1))
      by ring.
    rewrite E. lra.
  - intros Hg Hspeed.
    assert (Hover : over = 0).
    { unfold over, py_max.
      assert (Hf : Qltb 0 (get (Segment.avg_speed_kmh segment) 80 - 80) = false)
        by (apply Qltb_false; lra).
      rewrite Hf. reflexivity. }
    rewrite Hover, Hg. field.
Qed.

(** X23.  On the segments that [calculate_base_route] produces, the energy
    of a segment is between its base consumption and 1% more: the mock
    route has a speed of 80 km/h and an elevation gain of at most 100 m. *)
Theorem base_route_segment_energy
    (_calculate_distance : Q -> Q -> Q -> Q -> Q) (start destination : Q * Q)
    (vehicle_specs : VehicleSpecs.t) (segment : Segment.t) :
  let rate :=
    get (VehicleSpecs.energy_consumption_kwh_per_100km vehicle_specs) 20 in
  let base := Segment.distance_km segment * rate / 100 in
  In segment
    (BaseRoute.segments
       (calculate_base_route _calculate_distance start destination)) ->
  0 <= Segment.distance_km segment ->
  0 <= rate ->
  base <= _calculate_segment_energy segment vehicle_specs
  /\ _calculate_segment_energy segment vehicle_specs <= base * (101 # 100).
Proof.
  intros rate base Hin Hd Hr.
  destruct (NavigationServiceFacts.base_route_segment_fields
              _calculate_distance start destination segment Hin)
    as (_ & Hgain & Hspeed).
  assert (Hb : 0 <= base).
  { unfold base. apply Qle_shift_div_l; [reflexivity|].
    rewrite Qmult_0_l. apply Qmult_le_0_compat; assumption. }
  unfold _calculate_segment_energy. fold rate. fold base.
  rewrite Hspeed.
  change (py_max 0 (get (Some 80) 80 - 80)) with 0.
  clearbody base.
  destruct Hgain as [-> | ->].
  - change (get (Some 0) 0) with 0.
    assert (E : base * (1 + 0 / 1000 * (1 # 10)) * (1 + 0 / 100 * (1 # 10))
                == base) by field.
    rewrite E. split; lra.
  - change (get (Some 100) 0) with 100.
    assert (E : base * (1 + 100 / 1000 * (1 # 10)) * (1 + 0 / 100 * (1 # 10))
                == base * (101 # 100)) by field.
    rewrite E. split; lra.
Qed.

Lemma plan_segments_no_stop
    (nearby : Q * Q -> list ChargingService.Station.t)
    (vehicle_specs : VehicleSpecs.t)
    (preferences : option ChargingService.Preferences.t)
    (route_segments : list Segment.t) (current_battery current_position : Q) :
  match
    plan_segments nearby vehicle_specs preferences route_segments
      current_battery current_position []
  with
  | Returned l => l = []
  | Raised e =>
      e = KeyError "location" \/ e = KeyError "power_kw"
      \/ e = ZeroDivisionError
  end.
Proof.
  revert current_battery current_position.
  induction route_segments as [|segment rest IH];
    intros current_battery current_position; simpl.
  - reflexivity.
  - destruct (Qltb _ _).
    + destruct (ChargingService.find_best_charging_station _ _ _)
        as [charging_station|].
      * destruct (RouteOptimizerAgent._calculate_charging_time _ _ _)
          as [t|e] eqn:Et; simpl.
        -- auto.
        -- unfold RouteOptimizerAgent._calculate_charging_time in Et.
           destruct (ChargingService.Station.power_kw charging_station).
           ++ unfold py_div in Et. destruct (Qeq_bool _ 0); simpl in Et;
                inversion Et; auto.
           ++ inversion Et. auto.
      * simpl. unfold py_div. destruct (Qeq_bool _ 0); simpl; [auto|].
        apply IH.
    + simpl. unfold py_div. destruct (Qeq_bool _ 0); simpl; [auto|].
      apply IH.
Qed.

(** X24.  [_plan_charging_stops] never returns a charging stop.  Whenever a
    segment needs a charge and a station is found, building the
    [ChargingStop] raises [KeyError: 'location'], because the charging
    service's station dictionaries have no such key; so the function either
    returns the empty list (no segment needed a charge, or no station was
    found) or raises. *)
Theorem plan_charging_stops_never_returns_a_stop
    (nearby : Q * Q -> list ChargingService.Station.t)
    (base_route : BaseRoute.t) (vehicle_specs : VehicleSpecs.t)
    (current_battery_level : Q)
    (preferences : option ChargingService.Preferences.t) :
  match
    _plan_charging_stops nearby base_route vehicle_specs current_battery_level
      preferences
  with
  | Returned l => l = []
  | Raised e =>
      e = KeyError "location" \/ e = KeyError "power_kw"
      \/ e = ZeroDivisionError
  end.
Proof.
  unfold _plan_charging_stops. apply plan_segments_no_stop.
Qed.


Lemma fold_left_Zadd_nonneg (l : list Z) (a : Z) :
  (0 <= a)%Z -> Forall (fun x => (0 <= x)%Z) l ->
  (0 <= fold_left Z.add l a)%Z.
Proof.
  revert a. induction l as [|x l IH]; intros a Ha Hl; simpl.
  - exact Ha.
  - inversion Hl; subst. apply IH; [lia | assumption].
Qed.

(** X26.  [_calculate_route_metrics] raises [ZeroDivisionError] exactly
    when the battery capacity is 0.  Otherwise the efficiency score is at
    most 100, the final battery is never negative, the total distance is
    the sum of the waypoints' [distance_to_next] (a missing one counts 0),
    and the total time is the charging time plus a flat 120 minutes. *)
Theorem route_metrics_outcome (waypoints : list Waypoint.t)
    (vehicle_specs : VehicleSpecs.t) (initial_battery : Q) :
  let battery_capacity :=
    get (VehicleSpecs.battery_capacity_kwh vehicle_specs) 60 in
  match _calculate_route_metrics waypoints vehicle_specs initial_battery with
  | Raised e => e = ZeroDivisionError /\ battery_capacity == 0
  | Returned m =>
      ~ battery_capacity == 0
      /\ RouteMetrics.efficiency_score m <= 100
      /\ 0 <= RouteMetrics.final_battery m
      /\ RouteMetrics.total_distance m
         = py_sum (map (fun w => or_zero (Waypoint.distance_to_next w)) waypoints)
      /\ (0 <= RouteMetrics.total_distance m ->
          0 <= RouteMetrics.efficiency_score m)
      /\ (RouteMetrics.total_time m - 120
          = fold_left Z.add
              (map (fun w => or_zero_int (Waypoint.estimated_charging_time w))
                 (filter
                    (fun w => String.eqb (Waypoint.waypoint_type w) "charging")
                    waypoints))
              0)%Z
  end.
Proof.
  intro battery_capacity. unfold _calculate_route_metrics.
  fold battery_capacity. unfold py_div.
  destruct (Qeq_bool battery_capacity 0) eqn:E; simpl.
  - apply Qeq_bool_iff in E. auto.
  - apply Qeq_bool_neq in E. split; [exact E|].
    split; [apply py_min_le_l|]. split; [apply py_max_ge_l|].
    split; [reflexivity|]. split; [|lia].
    intro Hd.
    match goal with |- 0 <= py_min 100 ?x => set (raw := x) end.
    assert (Hraw : 0 <= raw).
    { unfold raw. apply Qmult_le_0_compat; [|discriminate].
      apply Qle_shift_div_l.
      - eapply Qlt_le_trans; [|apply py_max_ge_l]. reflexivity.
      - rewrite Qmult_0_l. exact Hd. }
    destruct (py_min_cases 100 raw) as [-> | ->]; [discriminate | exact Hraw].
Qed.

End RouteOptimizerFacts.

(** ** The further properties on concrete inputs *)

Lemma corridor_loop :
  while_true grid_distance 0 10 corridor 600 75 20 80 10
    (mkLoopState [] 0 0 70 0)
  = Some (Returned (CanReachDestination, corridor_stops)).
Proof. vm_compute. reflexivity. Qed.

Lemma low_target_plan :
  _find_optimal_stops grid_distance 0 0 0 10 corridor 400 75 90 20 50
  = Some (Returned low_target_stops).
Proof. vm_compute. reflexivity. Qed.

Lemma catalogue_plan :
  _find_optimal_stops grid_distance 0 0 0 10
    (map ChargingStationService.as_station
       (ChargingStationService.get_all_stations
          (Some ChargingStationService.sample_rows)))
    600 75 70 20 80
  = Some (Returned catalogue_stops).
Proof. vm_compute. reflexivity. Qed.

Lemma segment_guard_witness :
  while_true grid_distance 0 10 corridor 600 75 20 80 10
    (mkLoopState [] 0 0 70 0)
  = Some (Returned (CanReachDestination, corridor_stops))
  /\ CanReachDestination <> TooManySegments.
Proof.
  split; [exact corridor_loop|].
  exact (segment_guard_never_fires grid_distance 0 0 0 10 corridor
           600 75 70 20 80 10 CanReachDestination corridor_stops corridor_loop).
Defined.

Lemma exit_tells_feasibility_witness :
  while_true grid_distance 0 10 corridor 600 75 20 80 10
    (mkLoopState [] 0 0 70 0)
  = Some (Returned (CanReachDestination, corridor_stops))
  /\ final_leg_distance grid_distance 0 0 0 10 corridor_stops
     <= 600 * (leg_battery 70 80 (length corridor_stops) - 20) / 100.
Proof.
  split; [exact corridor_loop|].
  exact (exit_tells_feasibility grid_distance 0 0 0 10 corridor
           600 75 70 20 80 10 CanReachDestination corridor_stops corridor_loop).
Defined.

Lemma short_usable_range_witness :
  400 * (50 - 20) / 100 < 125
  /\ _find_optimal_stops grid_distance 0 0 0 10 corridor 400 75 50 20 80
     = Some (Returned []).
Proof.
  assert (H : 400 * (50 - 20) / 100 < 125) by (vm_compute; reflexivity).
  split; [exact H|].
  exact (short_usable_range_gets_no_stop grid_distance 0 0 0 10 corridor
           400 75 50 20 80 H).
Defined.

Lemma short_range_after_charge_witness :
  400 * (50 - 20) / 100 < 125
  /\ _find_optimal_stops grid_distance 0 0 0 10 corridor 400 75 90 20 50
     = Some (Returned low_target_stops)
  /\ (length low_target_stops <= 1)%nat.
Proof.
  assert (H : 400 * (50 - 20) / 100 < 125) by (vm_compute; reflexivity).
  split; [exact H|]. split; [exact low_target_plan|].
  exact (short_range_after_charge_gets_one_stop grid_distance 0 0 0 10
           corridor 400 75 90 20 50 low_target_stops H low_target_plan).
Defined.

Lemma later_stops_witness :
  corridor_trip = Some (Returned corridor_stops)
  /\ exists stop,
       nth_error corridor_stops 1 = Some stop
       /\ Stop.kwh_charged stop == 0
       /\ Stop.charging_time_minutes stop == 0
       /\ Stop.estimated_cost stop == 0.
Proof.
  split; [exact corridor_trip_stops|].
  unfold corridor_stops at 1. simpl nth_error.
  eexists. split; [reflexivity|].
  apply (later_stops_charge_nothing grid_distance 0 0 0 10 corridor
           600 75 70 20 80 corridor_stops corridor_trip_stops 0%nat).
  reflexivity.
Defined.

Lemma stops_are_catalogue_stations_witness :
  corridor_trip = Some (Returned corridor_stops)
  /\ exists stop,
       nth_error corridor_stops 2 = Some stop
       /\ Stop.segment stop = (Z.of_nat 2 + 1)%Z
       /\ Stop.battery_after_charge stop = 80
       /\ exists station,
            In station corridor
            /\ Stop.station_name stop = Station.name station
            /\ Stop.city stop = Station.city station
            /\ Stop.latitude stop = Station.latitude station
            /\ Stop.longitude stop = Station.longitude station
            /\ Stop.connector_type stop
               = get (Station.connector_type station) "CCS"%string
            /\ Stop.price_per_kwh stop
               = get (Station.price_per_kwh station) (35 # 100)
            /\ Stop.charging_power_kw stop = get (Station.power_kw station) 50
            /\ Stop.distance_to_destination stop
               = grid_distance (Station.latitude station)
                   (Station.longitude station) 0 10.
Proof.
  split; [exact corridor_trip_stops|].
  unfold corridor_stops at 1. simpl nth_error.
  eexists. split; [reflexivity|].
  apply (stops_are_catalogue_stations grid_distance 0 0 0 10 corridor
           600 75 70 20 80 corridor_stops corridor_trip_stops 2%nat).
  reflexivity.
Defined.

Lemma legs_witness :
  corridor_trip = Some (Returned corridor_stops)
  /\ exists stop,
       nth_error corridor_stops 0 = Some stop
       /\ 100 <= Stop.distance_traveled stop
       /\ Stop.distance_traveled stop
          <= 600 * (leg_battery 70 80 0 - 20) / 100 * (80 # 100).
Proof.
  split; [exact corridor_trip_stops|].
  unfold corridor_stops at 1. simpl nth_error.
  eexists. split; [reflexivity|].
  apply (legs_between_100_km_and_80_percent grid_distance 0 0 0 10 corridor
           600 75 70 20 80 corridor_stops corridor_trip_stops 0%nat).
  reflexivity.
Defined.

Lemma plan_detour_witness :
  corridor_trip = Some (Returned corridor_stops)
  /\ py_sum (map Stop.distance_traveled corridor_stops)
     + final_leg_distance grid_distance 0 0 0 10 corridor_stops
     <= grid_distance 0 0 0 10
        + 30 * inject_Z (Z.of_nat (length corridor_stops)).
Proof.
  split; [exact corridor_trip_stops|].
  exact (plan_detour_at_most_30_km_per_stop grid_distance 0 0 0 10 corridor
           600 75 70 20 80 corridor_stops corridor_trip_stops).
Defined.


Lemma catalogue_stops_witness :
  _find_optimal_stops grid_distance 0 0 0 10
    (map ChargingStationService.as_station
       (ChargingStationService.get_all_stations
          (Some ChargingStationService.sample_rows)))
    600 75 70 20 80
  = Some (Returned catalogue_stops)
  /\ exists stop,
       nth_error catalogue_stops 0 = Some stop
       /\ Stop.price_per_kwh stop
          = ChargingStationService.price_band (Stop.charging_power_kw stop)
       /\ Stop.estimated_cost stop
          = Stop.kwh_charged stop
            * ChargingStationService.price_band (Stop.charging_power_kw stop)
       /\ (Stop.connector_type stop = "DC Fast Charge (CCS/CHAdeMO)"%string
           \/ Stop.connector_type stop = "DC Fast Charge (CCS)"%string
           \/ Stop.connector_type stop = "AC Type 2"%string).
Proof.
  split; [exact catalogue_plan|].
  unfold catalogue_stops at 1. simpl nth_error.
  eexists. split; [reflexivity|].
  apply (ChargingStationServiceFacts.catalogue_stops_priced_by_power_band
           grid_distance (Some ChargingStationService.sample_rows)
           0 0 0 10 600 75 70 20 80 catalogue_stops catalogue_plan).
  unfold catalogue_stops. left. reflexivity.
Defined.

Lemma find_best_score_witness :
  ChargingService.find_best_charging_station
    [ChargingService.evgo_001; ChargingService.tesla_sc_001]
    ChargingService.ccs_vehicle (Some ChargingService.fast_and_wifi)
  = Some ChargingService.tesla_sc_001
  /\ exists best_score,
       ChargingService._calculate_station_score ChargingService.tesla_sc_001
         ChargingService.ccs_vehicle (Some ChargingService.fast_and_wifi)
       = Returned best_score
       /\ forall station,
            In station [ChargingService.evgo_001; ChargingService.tesla_sc_001] ->
            ChargingService.compatible ChargingService.ccs_vehicle station = true ->
            exists score,
              ChargingService._calculate_station_score station
                ChargingService.ccs_vehicle (Some ChargingService.fast_and_wifi)
              = Returned score
              /\ score <= best_score.
Proof.
  assert (H : ChargingService.find_best_charging_station
                [ChargingService.evgo_001; ChargingService.tesla_sc_001]
                ChargingService.ccs_vehicle (Some ChargingService.fast_and_wifi)
              = Some ChargingService.tesla_sc_001)
    by (vm_compute; reflexivity).
  split; [exact H|].
  exact (ChargingServiceMoreFacts.find_best_station_has_the_best_score
           [ChargingService.evgo_001; ChargingService.tesla_sc_001]
           ChargingService.ccs_vehicle (Some ChargingService.fast_and_wifi)
           ChargingService.tesla_sc_001 H).
Defined.

Lemma preferences_witness :
  exists plain preferred,
    ChargingService._calculate_station_score ChargingService.tesla_sc_001
      ChargingService.ccs_vehicle None = Returned plain
    /\ ChargingService._calculate_station_score ChargingService.tesla_sc_001
         ChargingService.ccs_vehicle (Some ChargingService.fast_and_wifi)
       = Returned preferred
    /\ plain <= preferred.
Proof.
  apply (ChargingServiceMoreFacts.preferences_never_lower_the_score
           ChargingService.tesla_sc_001 ChargingService.ccs_vehicle
           ChargingService.fast_and_wifi).
  intro H. vm_compute in H. discriminate H.
Defined.

Lemma segment_energy_witness :
  100 * 15 / 100
    <= RouteOptimizer._calculate_segment_energy sample_segment
         RouteOptimizer.sample_vehicle
  /\ (get (NavigationService.Segment.elevation_gain_m sample_segment) 0 == 0 ->
      get (NavigationService.Segment.avg_speed_kmh sample_segment) 80 <= 80 ->
      RouteOptimizer._calculate_segment_energy sample_segment
        RouteOptimizer.sample_vehicle
      == 100 * 15 / 100).
Proof.
  apply (RouteOptimizerFacts.segment_energy_at_least_base sample_segment
           RouteOptimizer.sample_vehicle);
    vm_compute; discriminate.
Defined.

Lemma base_route_segment_energy_witness :
  NavigationService.Segment.distance_km
    (NavigationService.segment_at (0, 0) (0, 10) (grid_distance 0 0 0 10) 11 2)
  * 15 / 100
  <= RouteOptimizer._calculate_segment_energy
       (NavigationService.segment_at (0, 0) (0, 10) (grid_distance 0 0 0 10) 11 2)
       RouteOptimizer.sample_vehicle
  /\ RouteOptimizer._calculate_segment_energy
       (NavigationService.segment_at (0, 0) (0, 10) (grid_distance 0 0 0 10) 11 2)
       RouteOptimizer.sample_vehicle
     <= NavigationService.Segment.distance_km
          (NavigationService.segment_at (0, 0) (0, 10) (grid_distance 0 0 0 10)
             11 2)
        * 15 / 100 * (101 # 100).
Proof.
  apply (RouteOptimizerFacts.base_route_segment_energy grid_distance
           (0, 0) (0, 10) RouteOptimizer.sample_vehicle
           (NavigationService.segment_at (0, 0) (0, 10)
              (grid_distance 0 0 0 10) 11 2)).
  - unfold NavigationService.calculate_base_route.
    cbn [NavigationService.BaseRoute.segments].
    apply in_map_iff. exists 2%nat.
    split; [vm_compute; reflexivity|].
    apply in_seq. split; [lia|]. vm_compute. lia.
  - vm_compute. discriminate.
  - vm_compute. discriminate.
Defined.

